(** * build.py: packaging YoDa related repositories with fpm

    A shallow embedding of [build.py] and the properties of its
    configuration merging, reference resolution, instruction gathering and
    command synthesis.

    Python values are the values [json.load] produces; a [dict] is an
    association list with unique keys kept in insertion order; every
    function that touches the file system, the git working copies or the
    packaging tool is a computation in a state-and-exception monad over
    [World]. *)

From Stdlib Require Import String Ascii List ZArith Bool Lia.
From Stdlib Require Import Sorting.Sorted Sorting.Permutation.
From Stdlib Require Import Structures.OrderedTypeEx.
From Stdlib Require Import Numbers.DecimalString.
Import ListNotations.

Local Open Scope string_scope.
Local Open Scope list_scope.

Set Warnings "-register-all".

(** ** Python values *)

(** What [json.load] returns, and what the program stores in its dicts.
    [VFloat m e] stands for the number [m * 10^e]. *)
Inductive value : Type :=
| VNone
| VBool (b : bool)
| VInt (n : Z)
| VFloat (m e : Z)
| VStr (s : string)
| VList (l : list value)
| VDict (d : list (string * value)).

(** A dict whose keys are strings, in insertion order (the order in which
    [items()] and [keys()] go through it). *)
Definition dict : Type := list (string * value).

Definition type_name (v : value) : string :=
  match v with
  | VNone => "NoneType"
  | VBool _ => "bool"
  | VInt _ => "int"
  | VFloat _ _ => "float"
  | VStr _ => "str"
  | VList _ => "list"
  | VDict _ => "dict"
  end.

(** Truth value of an object, as [if x:] tests it. *)
Definition truthy (v : value) : bool :=
  match v with
  | VNone => false
  | VBool b => b
  | VInt n => negb (n =? 0)%Z
  | VFloat m _ => negb (m =? 0)%Z
  | VStr s => negb (s =? EmptyString)
  | VList l => match l with [] => false | _ => true end
  | VDict d => match d with [] => false | _ => true end
  end.

(** [s == v] for a string [s]: only an equal string compares equal. *)
Definition str_eq (s : string) (v : value) : bool :=
  match v with
  | VStr t => s =? t
  | _ => false
  end.

(** [s in l] for a string [s] and a list [l]. *)
Definition str_in (s : string) (l : list value) : bool :=
  existsb (str_eq s) l.

(** ** Strings *)

(** A string is a sequence of characters, each an [ascii]; [chars s] is
    what iterating over [s] yields. *)
Definition chars (s : string) : list string :=
  map (fun c => String c EmptyString) (list_ascii_of_string s).

(** [len(s)] *)
Definition len (s : string) : nat := String.length s.

(** [s.startswith(p)] *)
Definition startswith (p s : string) : bool := String.prefix p s.

(** [s.endswith("/")] *)
Fixpoint endswith_sep (s : string) : bool :=
  match s with
  | EmptyString => false
  | String c EmptyString => (c =? "/")%char
  | String _ rest => endswith_sep rest
  end.

(** [s[1:]] *)
Definition drop_first (s : string) : string :=
  match s with
  | EmptyString => EmptyString
  | String _ rest => rest
  end.

(** [str(n)] for an integer. *)
Definition str_of_int (n : Z) : string :=
  NilZero.string_of_int (Z.to_int n).

(** [os.path.join(a, b)] on POSIX. *)
Definition path_join (a b : string) : string :=
  if startswith "/" b then b
  else if (a =? EmptyString) || endswith_sep a then a ++ b
  else a ++ "/" ++ b.

(** ** Dicts *)

(** [d.get(k)]: the value stored under [k], if any. *)
Fixpoint dict_get (k : string) (d : dict) : option value :=
  match d with
  | [] => None
  | (k', v) :: rest => if k =? k' then Some v else dict_get k rest
  end.

(** [k in d] *)
Definition dict_has (k : string) (d : dict) : bool :=
  match dict_get k d with Some _ => true | None => false end.

(** [d.get(k, default)] *)
Definition dict_get_default (k : string) (default : value) (d : dict) : value :=
  match dict_get k d with Some v => v | None => default end.

(** [d[k] = v]: an existing key keeps its position, a new one goes last. *)
Fixpoint dict_set (k : string) (v : value) (d : dict) : dict :=
  match d with
  | [] => [(k, v)]
  | (k', v') :: rest =>
      if k =? k' then (k', v) :: rest else (k', v') :: dict_set k v rest
  end.

(** [del d[k]] when present. *)
Fixpoint dict_remove (k : string) (d : dict) : dict :=
  match d with
  | [] => []
  | (k', v') :: rest =>
      if k =? k' then rest else (k', v') :: dict_remove k rest
  end.

(** [d.pop(k, default)]: the value and the dict left behind. *)
Definition dict_pop (k : string) (default : value) (d : dict) : value * dict :=
  (dict_get_default k default d, dict_remove k d).

(** [d.setdefault(k, v)]: the value now under [k] and the dict. *)
Definition dict_setdefault (k : string) (v : value) (d : dict) : value * dict :=
  match dict_get k d with
  | Some v' => (v', d)
  | None => (v, dict_set k v d)
  end.

(** [d.update(other)] for a dict [other]. *)
Definition dict_update (d other : dict) : dict :=
  fold_left (fun acc kv => dict_set (fst kv) (snd kv) acc) other d.

Definition keys (d : dict) : list string := map fst d.

(** ** Exceptions *)

(** The exception classes that occur. [JSONDecodeError] and
    [UnicodeDecodeError] are what [json.load] raises on a file that is not
    JSON or not text; [GitError] stands for the errors of the git backend;
    [NotModelled] marks the few behaviours of Python whose result has no
    place in this model (a dict key that is not a string), and is never
    raised on the inputs of the statements below. *)
Inductive exc_class : Type :=
| Exception
| KeyError
| TypeError
| ValueError
| JSONDecodeError
| UnicodeDecodeError
| AttributeError
| UnboundLocalError
| IOError
| OSError
| GitError
| NotModelled.

(** An exception with its message; an error of the operating system with
    its [errno], [strerror] and [filename]; a non-zero exit of a command. *)
Inductive exn : Type :=
| Raise (cls : exc_class) (msg : string)
| RaiseOS (cls : exc_class) (errno : Z) (strerror filename : string)
| CalledProcessError (returncode : Z) (output : string).

Inductive result (A : Type) : Type :=
| Ok (a : A)
| Err (e : exn).

Arguments Ok {A} a.
Arguments Err {A} e.

Definition rbind {A B : Type} (r : result A) (k : A -> result B) : result B :=
  match r with
  | Ok a => k a
  | Err e => Err e
  end.

Definition no_attribute (v : value) (attr : string) : exn :=
  Raise AttributeError
    ("'" ++ type_name v ++ "' object has no attribute '" ++ attr ++ "'").

Definition unbound_local (var : string) : exn :=
  Raise UnboundLocalError
    ("local variable '" ++ var ++ "' referenced before assignment").

(** [d[k]] *)
Definition dict_getitem (k : string) (d : dict) : result value :=
  match dict_get k d with
  | Some v => Ok v
  | None => Err (Raise KeyError k)
  end.

(** [sorted(l)] for a list of strings: the characters are compared by
    their codes, the first difference decides. *)
Fixpoint insert_sorted (x : string) (l : list string) : list string :=
  match l with
  | [] => [x]
  | y :: rest => if (x <=? y) then x :: l else y :: insert_sorted x rest
  end.

Definition sorted (l : list string) : list string :=
  fold_right insert_sorted [] l.

(** ** The world outside the program *)

(** What [json.load] does on the content of a file. *)
Inductive json_doc : Type :=
| Parses (v : value)
| Unparsable (cls : exc_class) (msg : string).

Inductive node : Type :=
| Dir
| File (content : json_doc).

(** The file system (by absolute path), the process's current directory and
    the commands handed to [subprocess] so far, oldest first. *)
Record World : Type := mkWorld {
  fs : string -> option node;
  cwd : string;
  ran : list (list string)
}.

(** State-and-exception monad: a failing computation keeps the world it
    had reached. *)
Definition M (A : Type) : Type := World -> result A * World.

Definition ret {A : Type} (a : A) : M A := fun w => (Ok a, w).

Definition raise {A : Type} (e : exn) : M A := fun w => (Err e, w).

Definition bind {A B : Type} (m : M A) (k : A -> M B) : M B :=
  fun w =>
    match m w with
    | (Ok a, w') => k a w'
    | (Err e, w') => (Err e, w')
    end.

Definition lift {A : Type} (r : result A) : M A := fun w => (r, w).

Declare Scope py_scope.
Delimit Scope py_scope with py.

Notation "x <- c1 ;; c2" := (bind c1 (fun x => c2))
  (at level 61, c1 at next level, right associativity) : py_scope.
Notation "' pat <- c1 ;; c2" := (bind c1 (fun x => match x with pat => c2 end))
  (at level 61, pat pattern, c1 at next level, right associativity) : py_scope.
Notation "c1 ;;; c2" := (bind c1 (fun _ => c2))
  (at level 61, right associativity) : py_scope.
Notation "x <~ r1 ;; r2" := (rbind r1 (fun x => r2))
  (at level 61, r1 at next level, right associativity) : py_scope.
Notation "' pat <~ r1 ;; r2" := (rbind r1 (fun x => match x with pat => r2 end))
  (at level 61, pat pattern, r1 at next level, right associativity) : py_scope.

Local Open Scope py_scope.

Definition stat (w : World) (p : string) : option node :=
  fs w (path_join (cwd w) p).

(** [os.path.isdir], [os.path.isfile], [os.path.exists] *)
Definition isdir (p : string) : M bool :=
  fun w => (Ok match stat w p with Some Dir => true | _ => false end, w).

Definition isfile (p : string) : M bool :=
  fun w => (Ok match stat w p with Some (File _) => true | _ => false end, w).

Definition exists_ (p : string) : M bool :=
  fun w => (Ok match stat w p with Some _ => true | None => false end, w).

(** ** Constants of build.py *)

Definition GITHUB_GIT := "https://github.com/{fork}/{name}".
Definition PKG_AREA := "/tmp/yoda-packages".
Definition PKG_SUBDIR := "packages".
Definition REPOS_JSON := "repos.json".
Definition REPOS_DEFAULT_KW := "DEFAULT".
Definition FPM_JSON := "fpm.json".
Definition DEFAULT_ARCH := "noarch".
Definition DEFAULT_PKG := "rpm".
Definition FPM := "fpm".
Definition ARGS_KW := "ARGS".
Definition DEFAULT_INPUT_TYPE := "dir".
Definition EXCLUDE_DEFAULT : list string := ["*/.git*"].

(** ** load_json *)

(** [raise type(e)(msg)] of line 67: the class of the exception caught is
    called with the one message. [JSONDecodeError] wants a message, the
    document and a position, and [UnicodeDecodeError] five arguments, so
    for them the call itself raises a [TypeError]; the other classes are
    built from the message. *)
Definition reraise (cls : exc_class) (msg : string) : exn :=
  match cls with
  | JSONDecodeError =>
      Raise TypeError
        "JSONDecodeError.__init__() missing 2 required positional arguments: 'doc' and 'pos'"
  | UnicodeDecodeError =>
      Raise TypeError "function takes exactly 5 arguments (1 given)"
  | _ => Raise cls msg
  end.

(** [open(fn, 'r')] is outside the [try]: its error propagates as it is.
    An exception of [json.load] is caught and line 67 raises in its place
    what [type(e)] makes of the message with the file name. *)
Definition load_json (fn : string) : M value :=
  fun w =>
    match stat w fn with
    | None => (Err (RaiseOS IOError 2 "No such file or directory" fn), w)
    | Some Dir => (Err (RaiseOS IOError 21 "Is a directory" fn), w)
    | Some (File (Parses v)) => (Ok v, w)
    | Some (File (Unparsable cls msg)) =>
        (Err (reraise cls ("Failed to load json " ++ fn ++ ": " ++ msg)), w)
    end.

(** ** parse_repos *)

(** [v.pop(k, default)] on an arbitrary object. *)
Definition py_pop (v : value) (k : string) (default : value)
  : result (value * dict) :=
  match v with
  | VDict d => Ok (dict_pop k default d)
  | VList _ => Err (Raise TypeError "pop expected at most 1 arguments, got 2")
  | _ => Err (no_attribute v "pop")
  end.

(** One element of the sequence given to [dict.update]: a key and a value.
    A pair whose key is not a string is outside [dict]. *)
Definition update_pair (i : nat) (elem : value) : result (string * value) :=
  let bad_length (n : nat) :=
    Err (Raise ValueError
           ("dictionary update sequence element #" ++ str_of_int (Z.of_nat i)
            ++ " has length " ++ str_of_int (Z.of_nat n) ++ "; 2 is required")) in
  match elem with
  | VList [VStr k; v] => Ok (k, v)
  | VList [VList _; _] => Err (Raise TypeError "unhashable type: 'list'")
  | VList [VDict _; _] => Err (Raise TypeError "unhashable type: 'dict'")
  | VList [_; _] => Err (Raise NotModelled "dict key that is not a string")
  | VList l => bad_length (List.length l)
  | VStr s =>
      match chars s with
      | [a; b] => Ok (a, VStr b)
      | cs => bad_length (List.length cs)
      end
  | VDict [(k1, _); (k2, _)] => Ok (k1, VStr k2)
  | VDict d => bad_length (List.length d)
  | _ =>
      Err (Raise TypeError
             ("cannot convert dictionary update sequence element #"
              ++ str_of_int (Z.of_nat i) ++ " to a sequence"))
  end.

Fixpoint update_seq (i : nat) (elems : list value) (d : dict) : result dict :=
  match elems with
  | [] => Ok d
  | e :: rest =>
      '(k, v) <~ update_pair i e ;;
      update_seq (S i) rest (dict_set k v d)
  end.

(** [d.update(other)] for an arbitrary object [other]. *)
Definition py_update (d : dict) (other : value) : result dict :=
  match other with
  | VDict o => Ok (dict_update d o)
  | VList l => update_seq 0 l d
  | VStr s => update_seq 0 (map VStr (chars s)) d
  | _ =>
      Err (Raise TypeError ("'" ++ type_name other ++ "' object is not iterable"))
  end.

(** The body of the loop of [parse_repos] for the key [k]: [default] is
    deep-copied, so every round starts from the same defaults. *)
Definition merge_repo (default entry : value) (k : string) : result dict :=
  '(tpls, v) <~ py_pop default "templates" (VDict []) ;;
  match tpls with
  | VDict tpls =>
      '(etpls, e) <~ py_pop entry "templates" (VDict []) ;;
      tpls <~ py_update tpls etpls ;;
      let v := dict_update v e in
      let v := dict_set "name" (VStr k) v in
      let v := dict_set "templates" (VDict tpls) v in
      Ok v
  | _ => Err (no_attribute tpls "update")
  end.

Fixpoint merge_repos (default : value) (repos : dict) (ks : list string)
  : result (list dict) :=
  match ks with
  | [] => Ok []
  | k :: rest =>
      entry <~ dict_getitem k repos ;;
      v <~ merge_repo default entry k ;;
      res <~ merge_repos default repos rest ;;
      Ok (v :: res)
  end.

Definition parse_repos : M (list dict) :=
  repos <- load_json REPOS_JSON ;;
  lift ('(default, repos) <~ py_pop repos REPOS_DEFAULT_KW (VDict []) ;;
        merge_repos default repos (sorted (keys repos))).

(** ** The git backend *)

Record Reference : Type := mkReference {
  name : string;   (* tag name, branch name, or remote/branch *)
  path : string    (* refs/tags/..., refs/heads/..., refs/remotes/... *)
}.



Record Commit : Type := mkCommit {
  committed_date : Z;
  hexsha : string
}.

(** A [Repo] handle; what it shows is read from the world. *)
Record Repo : Type := mkRepo {
  working_dir : string
}.

(** The operations of GitPython the program calls. *)
Record Git : Type := mkGit {
  Repo_ : string -> M Repo;                 (* Repo(path) *)
  clone_from : string -> string -> M Repo;  (* Repo.clone_from(url, path) *)
  refs : Repo -> M (list Reference);        (* repo.refs *)
  checkout : Repo -> Reference -> M unit;   (* repo.head.reference = ref;
                                               repo.head.reset(index=True, working_tree=True) *)
  commit : Repo -> M Commit;                (* repo.commit() *)
  remote_url : Repo -> M string             (* repo.remote().url *)
}.

(** ** File system operations *)

(** [shutil.rmtree(p)]: [p] and everything below it is gone. *)
Definition rmtree (p : string) : M unit :=
  fun w =>
    let root := path_join (cwd w) p in
    (Ok tt,
     mkWorld (fun q => if (q =? root) || startswith (root ++ "/") q
                       then None else fs w q)
             (cwd w) (ran w)).

(** The proper ancestors of a path, outermost first. *)
Fixpoint ancestors (acc s : string) : list string :=
  match s with
  | EmptyString => []
  | String c rest =>
      if (c =? "/")%char
      then (if acc =? EmptyString then [] else [acc]) ++ ancestors (acc ++ "/") rest
      else ancestors (acc ++ String c EmptyString) rest
  end.

Definition mkdir (p : string) : M unit :=
  fun w =>
    match fs w p with
    | Some _ => (Err (RaiseOS OSError 17 "File exists" p), w)
    | None =>
        (Ok tt,
         mkWorld (fun q => if q =? p then Some Dir else fs w q) (cwd w) (ran w))
    end.

Fixpoint make_ancestors (ps : list string) : M unit :=
  match ps with
  | [] => ret tt
  | p :: rest =>
      fun w =>
        match fs w p with
        | Some Dir => make_ancestors rest w
        | Some (File _) => (Err (RaiseOS OSError 20 "Not a directory" p), w)
        | None => (mkdir p ;;; make_ancestors rest) w
        end
  end.

(** [os.makedirs(p)] *)
Definition makedirs (p : string) : M unit :=
  fun w =>
    let full := path_join (cwd w) p in
    (make_ancestors (ancestors EmptyString full) ;;; mkdir full) w.

(** [os.chdir(p)] *)
Definition chdir (p : string) : M unit :=
  fun w =>
    match stat w p with
    | Some Dir => (Ok tt, mkWorld (fs w) (path_join (cwd w) p) (ran w))
    | Some (File _) => (Err (RaiseOS OSError 20 "Not a directory" p), w)
    | None => (Err (RaiseOS OSError 2 "No such file or directory" p), w)
    end.

(** [os.path.join(a, v)] when [v] is any object. *)
Definition os_path_join (a : string) (v : value) : result string :=
  match v with
  | VStr b => Ok (path_join a b)
  | _ =>
      Err (Raise TypeError
             ("join() argument must be str or bytes, not '" ++ type_name v ++ "'"))
  end.

(** ** The program *)

Inductive ref_type : Type :=
| tag
| branch.

(** The name looked for in [repo.refs] in the round of [ref_type]. *)
Definition full_name (t : ref_type) (ref_name : value) : result value :=
  match t with
  | branch =>
      match ref_name with
      | VStr s => Ok (VStr ("origin/" ++ s))
      | _ =>
          Err (Raise TypeError
                 ("cannot concatenate 'str' and '" ++ type_name ref_name
                  ++ "' objects"))
      end
  | tag => Ok ref_name
  end.

(** [[r for r in repo.refs if r.name == full_name]] *)
Definition candidates (rs : list Reference) (full : value) : list Reference :=
  filter (fun r => str_eq (name r) full) rs.

(** Lines 103-106: the version a matched ref gives. *)
Definition ref_version_of (repo_d : dict) (ref_name : value) : result value :=
  if truthy (dict_get_default "ref_is_version" (VBool false) repo_d) then
    match ref_name with
    | VStr s => Ok (VStr (if startswith "v" s then drop_first s else s))
    | _ => Err (no_attribute ref_name "startswith")
    end
  else Ok VNone.

(** Lines 169-176: the exclude list with the defaults appended. *)
Definition as_list (v : value) : list value :=
  match v with
  | VList l => l
  | _ => [v]
  end.

Fixpoint add_excludes (defaults : list string) (excl : list value) : list value :=
  match defaults with
  | [] => excl
  | def_excl :: rest =>
      add_excludes rest
        (if str_in def_excl excl then excl else excl ++ [VStr def_excl])
  end.

Definition normalize_exclude (defaults : list string) (excl : value) : list value :=
  add_excludes defaults (as_list excl).

Definition insert_excludes (fpm : dict) : dict :=
  let excl := dict_get_default "exclude" (VList []) fpm in
  dict_set "exclude" (VList (normalize_exclude EXCLUDE_DEFAULT excl)) fpm.

(** Lines 178-180. *)
Definition set_version (name : string) (version : value) (fpm : dict)
  : result dict :=
  let '(got_version, fpm) := dict_setdefault "version" version fpm in
  match got_version with
  | VNone => Err (Raise Exception ("No version for " ++ name))
  | _ => Ok fpm
  end.

(** Lines 147-149: the first key of length one is refused. *)
Fixpoint check_keys (ks : list string) : result unit :=
  match ks with
  | [] => Ok tt
  | k :: rest =>
      if (len k =? 1)%nat
      then Err (Raise Exception
                  ("Found single letter " ++ k ++ " (i.e. short option)"))
      else check_keys rest
  end.

Definition script_names : list string :=
  flat_map (fun op => map (fun when => (when ++ "-" ++ op)%string) ["before"; "after"])
           ["install"; "remove"; "upgrade"].

(** Lines 207-210: [user] and [group] become [rpm-user] and [rpm-group]. *)
Definition rename_generic (fpm : dict) : dict :=
  fold_left
    (fun fpm k =>
       if dict_has k fpm then
         let '(v, fpm) := dict_pop k VNone fpm in
         dict_set (DEFAULT_PKG ++ "-" ++ k) v fpm
       else fpm)
    ["user"; "group"] fpm.

Section Build.

(** The directory the program was started in. *)
Variable CWD : string.

(** [s.format] with the entries of [d] as keyword arguments *)
Variable format : string -> dict -> result string.

Variable git : Git.

(** [subprocess.check_output(cmds, stderr=subprocess.STDOUT)] *)
Variable check_output : list string -> M string.

(** *** prep_repo *)

(** Lines 75-87: the working copy, opened or cloned. *)
Definition open_repo (repo_d : dict) (wipe : bool) : M Repo :=
  name <- lift (dict_getitem "name" repo_d) ;;
  repo_path <- lift (os_path_join PKG_AREA name) ;;
  url <- lift (format GITHUB_GIT repo_d) ;;
  there <- (if wipe then isdir repo_path else ret false) ;;
  (if there then rmtree repo_path else ret tt) ;;;
  there <- isdir repo_path ;;
  if there then Repo_ git repo_path else clone_from git url repo_path.

(** Lines 94-109: the loop over the reference types. The result is the
    value of [ref] (with the [ref_type] of the round that set it), unset
    when no round matched, and [ref_version]. *)
Fixpoint resolve_ref (repo : Repo) (repo_d : dict) (ref_name : value)
         (types : list ref_type) : M (option (ref_type * Reference) * value) :=
  match types with
  | [] => ret (None, VNone)
  | t :: rest =>
      full <- lift (full_name t ref_name) ;;
      rs <- refs git repo ;;
      match candidates rs full with
      | ref :: _ =>
          ref_version <- lift (ref_version_of repo_d ref_name) ;;
          ret (Some (t, ref), ref_version)
      | [] => resolve_ref repo repo_d ref_name rest
      end
  end.

(** Lines 89-109. *)
Definition find_ref (repo : Repo) (repo_d : dict)
  : M (option (ref_type * Reference) * value) :=
  match dict_get "ref" repo_d with
  | Some ref_name => resolve_ref repo repo_d ref_name [tag; branch]
  | None => ret (None, VNone)
  end.

Definition prep_repo (repo_d : dict) (wipe : bool) : M (Repo * value) :=
  repo <- open_repo repo_d wipe ;;
  '(ref, ref_version) <- find_ref repo repo_d ;;
  match ref with
  | None => raise (unbound_local "ref")
  | Some (_, ref) =>
      checkout git repo ref ;;;
      ret (repo, dict_get_default "version" ref_version repo_d)
  end.

(** *** gather_instructions *)

(** Lines 126-140: [inst] is assigned only when one of the two
    directories exists, and line 139 reads it. *)
Definition find_instructions (name : string) (repo : Repo) : M string :=
  let ginst := path_join (path_join CWD "instructions") name in
  let linst := path_join (working_dir repo) "packaging" in
  l <- isdir linst ;;
  inst <- (if l then ret (Some linst)
           else g <- isdir ginst ;;
                if g then ret (Some ginst) else ret None) ;;
  match inst with
  | None => raise (unbound_local "inst")
  | Some inst =>
      d <- isdir inst ;;
      if d then ret inst
      else raise (Raise Exception "No instructions path found")
  end.

(** Lines 142-149. *)
Definition load_fpm (inst : string) : M dict :=
  let fpm_json := path_join inst FPM_JSON in
  f <- isfile fpm_json ;;
  if f then
    fpm <- load_json fpm_json ;;
    match fpm with
    | VDict fpm => lift (check_keys (keys fpm)) ;;; ret fpm
    | _ => raise (no_attribute fpm "keys")
    end
  else raise (Raise Exception ("No FPM instructions " ++ fpm_json ++ " found")).

(** Lines 152-158. *)
Fixpoint add_scripts (inst : string) (opnames : list string) (fpm : dict)
  : M dict :=
  match opnames with
  | [] => ret fpm
  | opname :: rest =>
      let script := path_join inst opname in
      f <- isfile script ;;
      add_scripts inst rest
        (if f then dict_set opname (VStr script) fpm else fpm)
  end.

(** Lines 160-167. *)
Definition set_defaults (name : string) (repo : Repo) (fpm : dict) : M dict :=
  last_commit <- commit git repo ;;
  let iteration :=
    (str_of_int (committed_date last_commit) ++ "."
     ++ substring 0 8 (hexsha last_commit))%string in
  let fpm := snd (dict_setdefault "iteration" (VStr iteration) fpm) in
  url <- remote_url git repo ;;
  let fpm := snd (dict_setdefault "url" (VStr url) fpm) in
  let fpm := snd (dict_setdefault "name" (VStr name) fpm) in
  let fpm := snd (dict_setdefault "architecture" (VStr DEFAULT_ARCH) fpm) in
  let fpm := snd (dict_setdefault "input-type" (VStr DEFAULT_INPUT_TYPE) fpm) in
  ret fpm.

Definition gather_instructions (name : string) (repo : Repo) (version : value)
  : M dict :=
  inst <- find_instructions name repo ;;
  fpm <- load_fpm inst ;;
  fpm <- add_scripts inst script_names fpm ;;
  fpm <- set_defaults name repo fpm ;;
  lift (set_version name version (insert_excludes fpm)).

(** *** run_fpm *)

Definition base_cmds (pkgdir : string) : list string :=
  [FPM; "--force"; "--verbose"; "--template-scripts";
   "--output-type"; DEFAULT_PKG; "--package"; pkgdir].

(** Lines 218-226: one element of an option's values; [cmds] and [args]
    are the lists built so far. *)
Definition render_element (template_data : dict) (orig_k : string)
           (orig_v : value) (acc : list string * list string)
  : result (list string * list string) :=
  let '(cmds, args) := acc in
  let k := ("--" ++ orig_k)%string in
  match orig_v with
  | VBool b => Ok (if b then cmds ++ [k] else cmds, args)
  | VStr s =>
      v <~ format s template_data ;;
      if orig_k =? ARGS_KW then Ok (cmds, args ++ [v])
      else Ok (cmds ++ [k; v], args)
  | _ => Err (no_attribute orig_v "format")
  end.

Fixpoint render_values (template_data : dict) (orig_k : string)
         (origs : list value) (acc : list string * list string)
  : result (list string * list string) :=
  match origs with
  | [] => Ok acc
  | orig_v :: rest =>
      acc <~ render_element template_data orig_k orig_v acc ;;
      render_values template_data orig_k rest acc
  end.

(** Lines 213-226: the loop over [fpm.items()]. *)
Fixpoint render_items (template_data : dict) (items : dict)
         (acc : list string * list string)
  : result (list string * list string) :=
  match items with
  | [] => Ok acc
  | (orig_k, origs) :: rest =>
      acc <~ render_values template_data orig_k (as_list origs) acc ;;
      render_items template_data rest acc
  end.

(** Lines 196-229: the command, from the renamed dict. *)
Definition synthesize (pkgdir : string) (template_data fpm : dict)
  : result (list string) :=
  '(cmds, args) <~ render_items template_data fpm (base_cmds pkgdir, []) ;;
  Ok (cmds ++ args).

(** The command is recorded in [ran] when it is handed to the tool. *)
Definition run_command (cmds : list string) : M string :=
  fun w => check_output cmds (mkWorld (fs w) (cwd w) (ran w ++ [cmds])).

Definition run_fpm (fpm template_data : dict) : M unit :=
  let template_data := dict_update template_data fpm in
  let pkgdir := path_join PKG_AREA PKG_SUBDIR in
  there <- exists_ pkgdir ;;
  (if there then ret tt else makedirs pkgdir) ;;;
  let fpm := rename_generic fpm in
  cmds <- lift (synthesize pkgdir template_data fpm) ;;
  run_command cmds ;;;
  ret tt.

(** *** make_package and main *)

Definition make_package (repo_d : dict) : M unit :=
  name <- lift (dict_getitem "name" repo_d) ;;
  '(repo, rversion) <- prep_repo repo_d false ;;
  match name with
  | VStr name =>
      fpm <- gather_instructions name repo rversion ;;
      chdir (working_dir repo) ;;;
      match dict_get_default "templates" (VDict []) repo_d with
      | VDict templates =>
          run_fpm fpm templates ;;;
          chdir CWD
      | v => raise (no_attribute v "update")
      end
  | _ =>
      raise (Raise TypeError
               ("join() argument must be str or bytes, not '"
                ++ type_name name ++ "'"))
  end.

Fixpoint make_packages (repos : list dict) : M unit :=
  match repos with
  | [] => ret tt
  | repo :: rest =>
      chdir CWD ;;;
      make_package repo ;;;
      make_packages rest
  end.

Definition main : M unit :=
  repos <- parse_repos ;;
  make_packages repos.

End Build.

(** ** A concrete setting, to run the program in *)

(** Replacement fields [{key}] with string values, and the escapes for
    braces; enough of [str.format] for the templates in use. *)
Fixpoint format_field (fuel : nat) (key : string) (s : string) (d : dict)
         (k : string -> string -> result string) : result string :=
  match s with
  | EmptyString => Err (Raise ValueError "expected '}' before end of string")
  | String c rest =>
      if (c =? "}")%char then
        match dict_get key d with
        | Some (VStr v) => k v rest
        | Some v => Err (Raise NotModelled ("str() of a " ++ type_name v))
        | None => Err (Raise KeyError key)
        end
      else
        match fuel with
        | O => Err (Raise NotModelled "field too long")
        | S fuel => format_field fuel (key ++ String c EmptyString) rest d k
        end
  end.

Fixpoint format_fuel (fuel : nat) (s : string) (d : dict) : result string :=
  match fuel with
  | O => Err (Raise NotModelled "template too long")
  | S fuel =>
      match s with
      | EmptyString => Ok EmptyString
      | String "{" (String "{" rest) =>
          out <~ format_fuel fuel rest d ;; Ok (String "{" out)
      | String "}" (String "}" rest) =>
          out <~ format_fuel fuel rest d ;; Ok (String "}" out)
      | String "{" rest =>
          format_field (String.length rest) EmptyString rest d
            (fun v rest => out <~ format_fuel fuel rest d ;; Ok (v ++ out)%string)
      | String "}" _ =>
          Err (Raise ValueError "Single '}' encountered in format string")
      | String c rest =>
          out <~ format_fuel fuel rest d ;; Ok (String c out)
      end
  end.

Definition simple_format (s : string) (d : dict) : result string :=
  format_fuel (S (String.length s)) s d.

(** A file system given by the list of its entries. *)
Fixpoint fs_of (entries : list (string * node)) (p : string) : option node :=
  match entries with
  | [] => None
  | (q, n) :: rest => if p =? q then Some n else fs_of rest p
  end.

(** A git backend over one repository content: opening succeeds on any
    path, cloning creates the working copy directory. *)
Definition static_git (rs : list Reference) (c : Commit) (url : string) : Git :=
  mkGit (fun p => ret (mkRepo p))
        (fun _ p => makedirs p ;;; ret (mkRepo p))
        (fun _ => ret rs)
        (fun _ _ => ret tt)
        (fun _ => ret c)
        (fun _ => ret url).

(** A packaging tool that always succeeds. *)
Definition fpm_succeeds (cmds : list string) : M string := ret "ok".

(** The end-to-end scenario: one repository [demo] of fork [acme] whose ref
    [v1.2.0] is a tag, instructions in [instructions/demo]. *)
Definition demo_refs : list Reference :=
  [ mkReference "master" "refs/heads/master";
    mkReference "origin/master" "refs/remotes/origin/master";
    mkReference "v1.2.0" "refs/tags/v1.2.0" ].

Definition demo_commit : Commit :=
  mkCommit 1500000000 "0123456789abcdef0123456789abcdef01234567".

Definition demo_git : Git :=
  static_git demo_refs demo_commit "https://github.com/acme/demo".

Definition demo_repos : value :=
  VDict [ ("DEFAULT", VDict []);
          ("demo", VDict [ ("fork", VStr "acme"); ("ref", VStr "v1.2.0");
                           ("ref_is_version", VBool true) ]) ].

Definition demo_world : World :=
  mkWorld
    (fs_of [ ("/work", Dir);
             ("/work/repos.json", File (Parses demo_repos));
             ("/work/instructions", Dir);
             ("/work/instructions/demo", Dir);
             ("/work/instructions/demo/fpm.json",
              File (Parses (VDict [("description", VStr "demo pkg")]))) ])
    "/work" [].

(** ** Notions used in the statements *)

(** [sub] occurs in [s]. *)
Definition includes (sub s : string) : Prop :=
  exists pre post, s = (pre ++ sub ++ post)%string.

(** The same, computed. *)
Definition occurs (sub s : string) : bool :=
  match String.index 0 sub s with
  | Some _ => true
  | None => false
  end.

(** The words an option of the package dict stands for in the command,
    said without the loop: an element [true] is the bare flag, a string
    under [ARGS] is its rendered text among the arguments, any other string
    is the flag followed by its rendered text; nothing else gives a word. *)
Definition rendered (format : string -> dict -> result string) (td : dict)
           (s : string) : string :=
  match format s td with
  | Ok v => v
  | Err _ => EmptyString
  end.

Definition element_flags (format : string -> dict -> result string)
           (td : dict) (k : string) (v : value) : list string :=
  match v with
  | VBool true => [("--" ++ k)%string]
  | VStr s => if k =? "ARGS" then [] else [("--" ++ k)%string; rendered format td s]
  | _ => []
  end.

Definition element_args (format : string -> dict -> result string)
           (td : dict) (k : string) (v : value) : list string :=
  match v with
  | VStr s => if k =? "ARGS" then [rendered format td s] else []
  | _ => []
  end.

Definition option_flags (format : string -> dict -> result string)
           (td : dict) (kv : string * value) : list string :=
  flat_map (element_flags format td (fst kv)) (as_list (snd kv)).

Definition option_args (format : string -> dict -> result string)
           (td : dict) (kv : string * value) : list string :=
  flat_map (element_args format td (fst kv)) (as_list (snd kv)).

(** The order [sorted] sorts by. *)
Definition str_le (a b : string) : Prop := (a <=? b) = true.

(** The message [load_json] builds around a parse error. *)
Definition load_error_message (fn perr : string) : string :=
  "Failed to load json " ++ fn ++ ": " ++ perr.

(** The version the package dict ends with, by the order of precedence:
    the [version] of fpm.json, then the [version] of the repository entry,
    then the version derived from the ref. *)
Definition version_precedence (fpm_version repo_version : option value)
           (derived : value) : value :=
  match fpm_version with
  | Some v => v
  | None =>
      match repo_version with
      | Some v => v
      | None => derived
      end
  end.

(** An element that is neither a boolean nor a string. *)
Definition unrenderable (v : value) : bool :=
  match v with
  | VBool _ | VStr _ => false
  | _ => true
  end.

(** Some option of the dict has such an element among its values. *)
Definition has_unrenderable (fpm : dict) : bool :=
  existsb (fun kv => existsb unrenderable (as_list (snd kv))) fpm.


(** ** Worlds for the examples *)

Definition empty_world : World := mkWorld (fun _ => None) "/work" [].

(** A repo list whose DEFAULT entry and whose entries set [name]. *)
Definition named_repos : value :=
  VDict [ ("zeta", VDict [ ("fork", VStr "acme"); ("name", VStr "other") ]);
          ("DEFAULT", VDict [ ("name", VStr "default");
                              ("templates", VDict [("a", VStr "1")]) ]);
          ("alpha", VDict [ ("templates", VDict [("b", VStr "2")]) ]) ].

Definition named_world : World :=
  mkWorld (fs_of [ ("/work", Dir);
                   ("/work/repos.json", File (Parses named_repos)) ])
          "/work" [].

(** What [parse_repos] makes of it. *)
Definition named_result : list dict :=
  [ [ ("name", VStr "alpha");
      ("templates", VDict [("a", VStr "1"); ("b", VStr "2")]) ];
    [ ("name", VStr "zeta"); ("fork", VStr "acme");
      ("templates", VDict [("a", VStr "1")]) ] ].

Definition broken_world : World :=
  mkWorld (fs_of [ ("/work", Dir);
                   ("/work/repos.json",
                    File (Unparsable JSONDecodeError
                            "Expecting value: line 1 column 1 (char 0)")) ])
          "/work" [].

(** A package dict whose number under [rpm-user] is replaced when [user]
    is renamed. *)
Definition shadowed_fpm : dict :=
  [ ("rpm-user", VInt 5); ("user", VStr "root") ].

Definition demo_repo_d : dict :=
  [ ("fork", VStr "acme"); ("ref", VStr "v1.2.0");
    ("ref_is_version", VBool true); ("name", VStr "demo");
    ("templates", VDict []) ].

(** The same repository with a branch [origin/v1.2.0] next to the tag. *)
Definition shared_name_refs : list Reference :=
  [ mkReference "origin/v1.2.0" "refs/remotes/origin/v1.2.0";
    mkReference "v1.2.0" "refs/tags/v1.2.0" ].

Definition shared_name_git : Git :=
  static_git shared_name_refs demo_commit "https://github.com/acme/demo".

(** The entry of [demo] with a ref that names nothing in the repository. *)
Definition unresolved_repo_d : dict :=
  [ ("fork", VStr "acme"); ("ref", VStr "nosuch");
    ("name", VStr "demo"); ("templates", VDict []) ].

(** The demo world once [demo] has been cloned. *)
Definition cloned_world : World :=
  mkWorld
    (fs_of [ ("/work", Dir);
             ("/work/repos.json", File (Parses demo_repos));
             ("/work/instructions", Dir);
             ("/work/instructions/demo", Dir);
             ("/work/instructions/demo/fpm.json",
              File (Parses (VDict [("description", VStr "demo pkg")])));
             ("/tmp", Dir);
             ("/tmp/yoda-packages", Dir);
             ("/tmp/yoda-packages/demo", Dir) ])
    "/work" [].

Definition demo_repo : Repo := mkRepo "/tmp/yoda-packages/demo".

Definition demo_fpm : dict :=
  [ ("description", VStr "demo pkg");
    ("iteration", VStr "1500000000.01234567");
    ("url", VStr "https://github.com/acme/demo");
    ("name", VStr "demo"); ("architecture", VStr "noarch");
    ("input-type", VStr "dir"); ("exclude", VList [VStr "*/.git*"]);
    ("version", VStr "1.2.0") ].

(** The same world with a [version] in fpm.json, and an entry of [demo]
    that sets [version] too. *)
Definition pinned_world : World :=
  mkWorld
    (fs_of [ ("/work", Dir);
             ("/work/instructions", Dir);
             ("/work/instructions/demo", Dir);
             ("/work/instructions/demo/fpm.json",
              File (Parses (VDict [("version", VStr "9.9")])));
             ("/tmp", Dir);
             ("/tmp/yoda-packages", Dir);
             ("/tmp/yoda-packages/demo", Dir) ])
    "/work" [].

Definition pinned_repo_d : dict :=
  [ ("fork", VStr "acme"); ("ref", VStr "v1.2.0");
    ("ref_is_version", VBool true); ("version", VStr "2.0");
    ("name", VStr "demo"); ("templates", VDict []) ].

(** A world where the working copy of [demo] has a [packaging] directory
    and [instructions/demo] exists as well. *)
Definition packaging_world : World :=
  mkWorld
    (fs_of [ ("/work", Dir);
             ("/work/instructions", Dir);
             ("/work/instructions/demo", Dir);
             ("/tmp", Dir);
             ("/tmp/yoda-packages", Dir);
             ("/tmp/yoda-packages/demo", Dir);
             ("/tmp/yoda-packages/demo/packaging", Dir) ])
    "/work" [].

(** A world where [demo] is cloned and no instructions exist. *)
Definition bare_world : World :=
  mkWorld
    (fs_of [ ("/work", Dir);
             ("/tmp", Dir);
             ("/tmp/yoda-packages", Dir);
             ("/tmp/yoda-packages/demo", Dir);
             ("/tmp/yoda-packages/demo/fpm.json",
              File (Parses (VDict [("version", VStr "1.0")]))) ])
    "/work" [].

(** ** More worlds *)

Definition world_with_repos (repos : value) : World :=
  mkWorld (fs_of [ ("/work", Dir);
                   ("/work/repos.json", File (Parses repos)) ])
          "/work" [].

(** A repo list with an entry that is not an object. *)
Definition scalar_entry_repos : dict :=
  [ ("alpha", VDict [("fork", VStr "acme")]); ("beta", VInt 5) ].

(** A repo list that has nothing but a DEFAULT, which is not an object. *)
Definition default_only_repos : dict := [ ("DEFAULT", VInt 7) ].

(** A world where the working copy of [demo] brings its instructions,
    with two of the six scripts. *)
Definition scripted_world : World :=
  mkWorld
    (fs_of [ ("/work", Dir);
             ("/tmp", Dir);
             ("/tmp/yoda-packages", Dir);
             ("/tmp/yoda-packages/demo", Dir);
             ("/tmp/yoda-packages/demo/packaging", Dir);
             ("/tmp/yoda-packages/demo/packaging/fpm.json",
              File (Parses (VDict [ ("description", VStr "demo pkg");
                                    ("after-install", VStr "mine");
                                    ("before-remove", VStr "kept");
                                    ("architecture", VStr "x86_64");
                                    ("exclude", VStr "*.pyc") ])));
             ("/tmp/yoda-packages/demo/packaging/before-install",
              File (Unparsable JSONDecodeError
                      "Expecting value: line 1 column 1 (char 0)"));
             ("/tmp/yoda-packages/demo/packaging/after-install",
              File (Unparsable JSONDecodeError
                      "Expecting value: line 1 column 1 (char 0)")) ])
    "/work" [].

(** What [gather_instructions] makes of it. *)
Definition scripted_fpm : dict :=
  [ ("description", VStr "demo pkg");
    ("after-install", VStr "/tmp/yoda-packages/demo/packaging/after-install");
    ("before-remove", VStr "kept");
    ("architecture", VStr "x86_64");
    ("exclude", VList [VStr "*.pyc"; VStr "*/.git*"]);
    ("before-install", VStr "/tmp/yoda-packages/demo/packaging/before-install");
    ("iteration", VStr "1500000000.01234567");
    ("url", VStr "https://github.com/acme/demo");
    ("name", VStr "demo");
    ("input-type", VStr "dir");
    ("version", VStr "1.2.0") ].

(** The same with an fpm.json that has a short option. *)
Definition short_option_world : World :=
  mkWorld
    (fs_of [ ("/work", Dir);
             ("/tmp", Dir);
             ("/tmp/yoda-packages", Dir);
             ("/tmp/yoda-packages/demo", Dir);
             ("/tmp/yoda-packages/demo/packaging", Dir);
             ("/tmp/yoda-packages/demo/packaging/fpm.json",
              File (Parses (VDict [ ("description", VStr "demo pkg");
                                    ("d", VStr "dep");
                                    ("s", VStr "dir") ]))) ])
    "/work" [].

(** The entries of [named_repos] in another order. *)
Definition named_repos_reordered : dict :=
  [ ("alpha", VDict [ ("templates", VDict [("b", VStr "2")]) ]);
    ("zeta", VDict [ ("fork", VStr "acme"); ("name", VStr "other") ]);
    ("DEFAULT", VDict [ ("name", VStr "default");
                        ("templates", VDict [("a", VStr "1")]) ]) ].

Definition named_repos_dict : dict :=
  [ ("zeta", VDict [ ("fork", VStr "acme"); ("name", VStr "other") ]);
    ("DEFAULT", VDict [ ("name", VStr "default");
                        ("templates", VDict [("a", VStr "1")]) ]);
    ("alpha", VDict [ ("templates", VDict [("b", VStr "2")]) ]) ].

(** An entry of [demo] whose ref is not a string. *)
Definition null_ref_repo_d : dict :=
  [ ("fork", VStr "acme"); ("ref", VNone);
    ("name", VStr "demo"); ("templates", VDict []) ].

(** A world where the working copy has a [packaging] directory without
    fpm.json. *)
Definition no_fpm_json_world : World :=
  mkWorld
    (fs_of [ ("/work", Dir);
             ("/tmp", Dir);
             ("/tmp/yoda-packages", Dir);
             ("/tmp/yoda-packages/demo", Dir);
             ("/tmp/yoda-packages/demo/packaging", Dir) ])
    "/work" [].






(** A world where the fpm.json of the instructions is not JSON. *)
Definition bad_fpm_json_world : World :=
  mkWorld
    (fs_of [ ("/work", Dir);
             ("/tmp", Dir);
             ("/tmp/yoda-packages", Dir);
             ("/tmp/yoda-packages/demo", Dir);
             ("/tmp/yoda-packages/demo/packaging", Dir);
             ("/tmp/yoda-packages/demo/packaging/fpm.json",
              File (Unparsable JSONDecodeError
                      "Expecting value: line 1 column 1 (char 0)")) ])
    "/work" [].

(** ** Properties of dicts *)

Lemma dict_get_set_same (k : string) (v : value) (d : dict) :
  dict_get k (dict_set k v d) = Some v.
Proof.
  induction d as [| [k' v'] rest IH]; simpl.
  - now rewrite String.eqb_refl.
  - destruct (k =? k') eqn:E; simpl; rewrite E; auto.
Qed.

Lemma dict_get_set_other (k k' : string) (v : value) (d : dict) :
  k <> k' -> dict_get k (dict_set k' v d) = dict_get k d.
Proof.
  intros Hne. induction d as [| [k2 v2] rest IH]; simpl.
  - apply String.eqb_neq in Hne. now rewrite Hne.
  - destruct (k' =? k2) eqn:E; simpl.
    + apply String.eqb_eq in E. subst k2.
      apply String.eqb_neq in Hne. now rewrite Hne.
    + now rewrite IH.
Qed.

Lemma dict_set_twice (k : string) (v : value) (d : dict) :
  dict_set k v (dict_set k v d) = dict_set k v d.
Proof.
  induction d as [| [k' v'] rest IH]; simpl.
  - now rewrite String.eqb_refl.
  - destruct (k =? k') eqn:E; simpl; rewrite E; [reflexivity |].
    now rewrite IH.
Qed.

Lemma dict_get_setdefault_other (k k' : string) (v : value) (d : dict) :
  k <> k' -> dict_get k (snd (dict_setdefault k' v d)) = dict_get k d.
Proof.
  intros Hne. unfold dict_setdefault.
  destruct (dict_get k' d); simpl; auto using dict_get_set_other.
Qed.

(** ** Exclude-list normalization *)

Lemma str_in_app (s : string) (l1 l2 : list value) :
  str_in s (l1 ++ l2) = str_in s l1 || str_in s l2.
Proof. unfold str_in. apply existsb_app. Qed.

Lemma str_in_self (s : string) (l : list value) :
  str_in s (l ++ [VStr s]) = true.
Proof.
  rewrite str_in_app. simpl. rewrite String.eqb_refl.
  now rewrite orb_true_r.
Qed.

(** What [add_excludes] appends: patterns of the defaults that were not yet
    in the list, each once, behind the list as it was. *)
Lemma add_excludes_appends (defaults : list string) :
  forall excl : list value,
  exists appended : list string,
    add_excludes defaults excl = excl ++ map VStr appended /\
    NoDup appended /\
    (forall d, In d appended -> In d defaults /\ str_in d excl = false).
Proof.
  induction defaults as [| d rest IH]; intros excl; simpl.
  - exists []. simpl. rewrite app_nil_r. repeat split; try constructor.
    all: contradiction.
  - destruct (str_in d excl) eqn:Hin.
    + destruct (IH excl) as (app & Heq & Hnd & Hall).
      exists app. repeat split; auto; apply Hall in H; tauto.
    + destruct (IH (excl ++ [VStr d])) as (app & Heq & Hnd & Hall).
      exists (d :: app). simpl. rewrite Heq, <- app_assoc. simpl.
      split; [reflexivity |]. split.
      * constructor; auto. intros Hd. apply Hall in Hd.
        destruct Hd as [_ Hd]. now rewrite str_in_self in Hd.
      * intros d' [<- | Hd']; [tauto |].
        apply Hall in Hd'. destruct Hd' as [Hr Hf].
        rewrite str_in_app in Hf. apply orb_false_iff in Hf. tauto.
Qed.

(** After [add_excludes] every default pattern is in the list. *)
Lemma add_excludes_complete (defaults : list string) :
  forall (excl : list value) (d : string),
    In d defaults \/ str_in d excl = true ->
    str_in d (add_excludes defaults excl) = true.
Proof.
  induction defaults as [| d0 rest IH]; intros excl d H; simpl.
  - destruct H as [[] | H]; exact H.
  - apply IH. destruct H as [[<- | H] | H]; auto; right.
    + destruct (str_in d0 excl) eqn:E; auto using str_in_self.
    + destruct (str_in d0 excl); auto.
      rewrite str_in_app, H. reflexivity.
Qed.

(** Nothing is appended to a list that has every default pattern. *)
Lemma add_excludes_fixed (defaults : list string) :
  forall excl : list value,
    (forall d, In d defaults -> str_in d excl = true) ->
    add_excludes defaults excl = excl.
Proof.
  induction defaults as [| d rest IH]; intros excl H; simpl; auto.
  rewrite (H d (or_introl eq_refl)). apply IH.
  intros d' Hd'. apply H. now right.
Qed.

(** C6: exclude-list normalization is idempotent: normalizing the list it
    produced gives that list again; the list is the original one (a scalar
    wrapped into a one-element list) followed by the default patterns that
    were missing, each appended once. Stated for any list of default
    patterns, and for the dict step of [gather_instructions] with
    [EXCLUDE_DEFAULT]. *)
Theorem exclude_normalization_idempotent :
  forall (defaults : list string) (excl : value),
    normalize_exclude defaults (VList (normalize_exclude defaults excl))
    = normalize_exclude defaults excl
    /\ (exists appended : list string,
           normalize_exclude defaults excl = as_list excl ++ map VStr appended
           /\ NoDup appended
           /\ forall d, In d appended ->
                        In d defaults /\ str_in d (as_list excl) = false)
    /\ (forall fpm : dict, insert_excludes (insert_excludes fpm) = insert_excludes fpm).
Proof.
  intros defaults excl.
  assert (Hidem : forall (ds : list string) (e : value),
             normalize_exclude ds (VList (normalize_exclude ds e))
             = normalize_exclude ds e).
  { intros ds e. unfold normalize_exclude at 1. simpl.
    apply add_excludes_fixed. intros d Hd.
    apply add_excludes_complete. now left. }
  split; [apply Hidem |]. split; [apply add_excludes_appends |].
  intros fpm. unfold insert_excludes.
  unfold dict_get_default at 1. rewrite dict_get_set_same.
  rewrite Hidem. apply dict_set_twice.
Qed.

(** ** load_json *)

Lemma append_nil_r (s : string) : (s ++ EmptyString)%string = s.
Proof. induction s as [| c s IH]; simpl; [reflexivity | now rewrite IH]. Qed.

Lemma append_assoc (a b c : string) :
  ((a ++ b) ++ c)%string = (a ++ b ++ c)%string.
Proof. induction a as [| x a IH]; simpl; [reflexivity | now rewrite IH]. Qed.

Lemma load_error_message_includes (fn perr : string) :
  includes fn (load_error_message fn perr)
  /\ includes perr (load_error_message fn perr).
Proof.
  unfold includes, load_error_message. split.
  - exists "Failed to load json ", (": " ++ perr)%string. reflexivity.
  - exists ("Failed to load json " ++ fn ++ ": ")%string, EmptyString.
    now rewrite append_nil_r, !append_assoc.
Qed.

(** A missing file: the error of [open], which carries the file name. *)
Lemma load_json_missing (fn : string) (w : World) :
  stat w fn = None ->
  load_json fn w
  = (Err (RaiseOS IOError 2 "No such file or directory" fn), w).
Proof. intros H. unfold load_json. now rewrite H. Qed.

(** Content that is not JSON: the error is the [TypeError] of calling
    [JSONDecodeError] with one argument, the same for every file name and
    every parse error. *)
Lemma load_json_not_json (fn perr : string) (w : World) :
  stat w fn = Some (File (Unparsable JSONDecodeError perr)) ->
  load_json fn w
  = (Err (Raise TypeError
            "JSONDecodeError.__init__() missing 2 required positional arguments: 'doc' and 'pos'"),
     w).
Proof. intros H. unfold load_json. now rewrite H. Qed.

(** An exception of a class that is built from its message keeps its class
    and gets the message with the file name and the parse error. *)
Lemma load_json_message_class (fn perr : string) (cls : exc_class) (w : World) :
  stat w fn = Some (File (Unparsable cls perr)) ->
  cls <> JSONDecodeError ->
  cls <> UnicodeDecodeError ->
  load_json fn w = (Err (Raise cls (load_error_message fn perr)), w)
  /\ includes fn (load_error_message fn perr)
  /\ includes perr (load_error_message fn perr).
Proof.
  intros H H1 H2. unfold load_json. rewrite H.
  split; [| apply load_error_message_includes].
  destruct cls; try reflexivity; congruence.
Qed.

(** C9 on a repos.json that is not JSON: [load_json] fails, but the error
    is the [TypeError] raised by line 67 itself, where [type(e)] is
    [JSONDecodeError] and cannot be built from one message; its message has
    neither the file name nor the parse error that the message of line 67
    was to carry. On a missing file [load_json] fails with the error of
    [open], which carries the file name. *)
Theorem load_json_invalid_json_loses_context :
  stat broken_world REPOS_JSON
  = Some (File (Unparsable JSONDecodeError
                  "Expecting value: line 1 column 1 (char 0)"))
  /\ (exists msg : string,
         load_json REPOS_JSON broken_world
         = (Err (Raise TypeError msg), broken_world)
         /\ occurs REPOS_JSON msg = false
         /\ occurs "Expecting value: line 1 column 1 (char 0)" msg = false)
  /\ stat empty_world REPOS_JSON = None
  /\ load_json REPOS_JSON empty_world
     = (Err (RaiseOS IOError 2 "No such file or directory" REPOS_JSON),
        empty_world).
Proof.
  split; [reflexivity |]. split.
  - eexists. split; [reflexivity |]. split; reflexivity.
  - split; reflexivity.
Qed.

(** ** run_fpm: command synthesis *)

(** C8: in command synthesis a boolean element [true] appends exactly the
    bare flag [--key], with no value, and a boolean element [false]
    appends nothing; for the dict [{"force": true}] the command is the base
    command followed by [--force], and for [{"force": false}] it is the base
    command alone. *)
Theorem boolean_flag_rendering :
  forall (format : string -> dict -> result string)
         (template_data : dict) (pkgdir orig_k : string)
         (cmds args : list string),
    render_element format template_data orig_k (VBool true) (cmds, args)
    = Ok (cmds ++ [("--" ++ orig_k)%string], args)
    /\ render_element format template_data orig_k (VBool false) (cmds, args)
       = Ok (cmds, args)
    /\ synthesize format pkgdir template_data [("force", VBool true)]
       = Ok (base_cmds pkgdir ++ ["--force"])
    /\ synthesize format pkgdir template_data [("force", VBool false)]
       = Ok (base_cmds pkgdir).
Proof.
  intros. repeat split; reflexivity.
Qed.

Lemma render_values_unrenderable
      (format : string -> dict -> result string) (td : dict) (k : string) :
  forall (vs : list value) (acc : list string * list string),
    existsb unrenderable vs = true ->
    exists e, render_values format td k vs acc = Err e.
Proof.
  induction vs as [| v rest IH]; intros acc H; simpl in *.
  - discriminate.
  - destruct (render_element format td k v acc) as [acc' | e] eqn:Hv; simpl.
    + apply IH. destruct v; simpl in *; auto; destruct acc; discriminate.
    + now exists e.
Qed.

Lemma render_items_unrenderable
      (format : string -> dict -> result string) (td : dict) :
  forall (items : dict) (acc : list string * list string),
    has_unrenderable items = true ->
    exists e, render_items format td items acc = Err e.
Proof.
  induction items as [| [k origs] rest IH]; intros acc H; simpl in *.
  - discriminate.
  - destruct (render_values format td k (as_list origs) acc)
      as [acc' | e] eqn:Hv; simpl.
    + apply IH. apply orb_true_iff in H. destruct H as [H | H]; auto.
      destruct (render_values_unrenderable format td k _ acc H) as [e He].
      congruence.
    + now exists e.
Qed.

Lemma make_ancestors_ran (ps : list string) :
  forall (w w' : World) (r : result unit),
    make_ancestors ps w = (r, w') -> ran w' = ran w.
Proof.
  induction ps as [| p rest IH]; intros w w' r H; simpl in H.
  - inversion H. reflexivity.
  - destruct (fs w p) as [[| c] |] eqn:E.
    + eauto.
    + inversion H. reflexivity.
    + unfold bind, mkdir in H. rewrite E in H.
      apply IH in H. exact H.
Qed.

Lemma makedirs_ran (p : string) (w w' : World) (r : result unit) :
  makedirs p w = (r, w') -> ran w' = ran w.
Proof.
  unfold makedirs, bind. intros H.
  destruct (make_ancestors (ancestors EmptyString (path_join (cwd w) p)) w)
    as [[[] | e] w1] eqn:E.
  - apply make_ancestors_ran in E. unfold mkdir in H.
    destruct (fs w1 (path_join (cwd w) p)); inversion H; subst; simpl; auto.
  - apply make_ancestors_ran in E. inversion H; subst. exact E.
Qed.

(** C10, as the code has it: when the package dict, after [user] and
    [group] have been renamed to [rpm-user] and [rpm-group], has an element
    that is neither a boolean nor a string (a number, [None], a nested list
    or dict), [run_fpm] fails and no command has been executed; rendering
    such an element fails because it has no [format] attribute. *)
Theorem run_fpm_fails_on_unrenderable :
  forall (format : string -> dict -> result string)
         (check_output : list string -> M string)
         (fpm template_data : dict) (w : World),
    has_unrenderable (rename_generic fpm) = true ->
    (exists (e : exn) (w' : World),
        run_fpm format check_output fpm template_data w = (Err e, w')
        /\ ran w' = ran w)
    /\ forall (orig_k : string) (orig_v : value)
              (acc : list string * list string),
         unrenderable orig_v = true ->
         render_element format (dict_update template_data fpm) orig_k orig_v acc
         = Err (no_attribute orig_v "format").
Proof.
  intros format check_output fpm td w H. split.
  - unfold run_fpm, bind, exists_, synthesize, lift.
    set (pkgdir := path_join PKG_AREA PKG_SUBDIR).
    destruct (render_items_unrenderable format (dict_update td fpm) _
                (base_cmds pkgdir, []) H) as [e He].
    rewrite He. simpl.
    destruct (stat w pkgdir).
    + simpl. now exists e, w.
    + destruct (makedirs pkgdir w) as [[[] | e'] w1] eqn:E;
        apply makedirs_ran in E; eauto.
  - intros orig_k orig_v [cmds args] Hv.
    destruct orig_v; try discriminate; reflexivity.
Qed.

Lemma run_fpm_fails_on_unrenderable_witness :
  (exists (e : exn) (w' : World),
      run_fpm simple_format fpm_succeeds [("iteration", VInt 5)] [] demo_world
      = (Err e, w')
      /\ ran w' = ran demo_world)
  /\ forall (orig_k : string) (orig_v : value)
            (acc : list string * list string),
       unrenderable orig_v = true ->
       render_element simple_format
                      (dict_update [] [("iteration", VInt 5)]) orig_k orig_v acc
       = Err (no_attribute orig_v "format").
Proof.
  apply (run_fpm_fails_on_unrenderable simple_format fpm_succeeds
           [("iteration", VInt 5)] [] demo_world).
  reflexivity.
Defined.

Example run_fpm_number_fails :
  fst (run_fpm simple_format fpm_succeeds [("iteration", VInt 5)] [] demo_world)
  = Err (Raise AttributeError "'int' object has no attribute 'format'").
Proof. reflexivity. Qed.

(** C10, as stated, fails on a dict whose number is replaced by the
    renaming of [user]: the dict has a number among its values, and
    [run_fpm] runs its command. *)
Lemma run_fpm_shadowed_number_runs :
  dict_get "rpm-user" shadowed_fpm = Some (VInt 5)
  /\ has_unrenderable shadowed_fpm = true
  /\ fst (run_fpm simple_format fpm_succeeds shadowed_fpm [] demo_world) = Ok tt
  /\ ran (snd (run_fpm simple_format fpm_succeeds shadowed_fpm [] demo_world))
     = [ base_cmds "/tmp/yoda-packages/packages" ++ ["--rpm-user"; "root"] ].
Proof.
  repeat split; reflexivity.
Qed.

(** ** Sorting *)

Lemma str_le_lt_eq (a b : string) :
  str_le a b <-> String_as_OT.lt a b \/ a = b.
Proof.
  unfold str_le, String.leb.
  rewrite <- String_as_OT.cmp_lt, <- String_as_OT.cmp_eq.
  unfold String_as_OT.cmp.
  destruct (a ?= b); split; intros H; auto; try discriminate.
  destruct H; discriminate.
Qed.

Lemma str_le_trans (a b c : string) : str_le a b -> str_le b c -> str_le a c.
Proof.
  rewrite !str_le_lt_eq.
  intros [Hab | ->] [Hbc | <-]; auto.
  left. eapply String_as_OT.lt_trans; eauto.
Qed.

Lemma str_le_total (a b : string) : str_le a b \/ str_le b a.
Proof. apply String.leb_total. Qed.

Lemma insert_sorted_permutation (x : string) (l : list string) :
  Permutation (insert_sorted x l) (x :: l).
Proof.
  induction l as [| y rest IH]; simpl; auto.
  destruct (x <=? y); auto.
  rewrite IH. apply perm_swap.
Qed.

Lemma sorted_permutation (l : list string) : Permutation (sorted l) l.
Proof.
  induction l as [| x rest IH]; simpl; auto.
  rewrite insert_sorted_permutation. now constructor.
Qed.

Lemma insert_sorted_ordered (x : string) (l : list string) :
  StronglySorted str_le l -> StronglySorted str_le (insert_sorted x l).
Proof.
  induction 1 as [| y rest Hs IH Hall]; simpl.
  - repeat constructor.
  - destruct (x <=? y) eqn:E.
    + constructor; [now constructor |].
      constructor; [exact E |].
      eapply Forall_impl; [| exact Hall].
      intros z Hz. now apply str_le_trans with y.
    + constructor; [exact IH |].
      assert (Hyx : str_le y x).
      { destruct (str_le_total x y) as [H | H]; auto.
        unfold str_le in H. congruence. }
      eapply Permutation_Forall.
      * symmetry. apply insert_sorted_permutation.
      * now constructor.
Qed.

Lemma sorted_ordered (l : list string) : StronglySorted str_le (sorted l).
Proof.
  induction l as [| x rest IH]; simpl.
  - constructor.
  - now apply insert_sorted_ordered.
Qed.

(** ** parse_repos *)

Lemma merge_repo_name (default entry : value) (k : string) (v : dict) :
  merge_repo default entry k = Ok v -> dict_get "name" v = Some (VStr k).
Proof.
  unfold merge_repo. intros H.
  destruct (py_pop default "templates" (VDict [])) as [[tpls d] | e];
    simpl in H; [| discriminate].
  destruct tpls; try discriminate.
  destruct (py_pop entry "templates" (VDict [])) as [[etpls e] | e];
    simpl in H; [| discriminate].
  destruct (py_update d0 etpls) as [tpls | e']; simpl in H; [| discriminate].
  inversion H; subst.
  rewrite dict_get_set_other by discriminate.
  apply dict_get_set_same.
Qed.

(** Entries that are objects whose [templates], if any, are objects are
    merged without error. *)
Lemma merge_repo_total (default entry : dict) (k : string) :
  (forall v, dict_get "templates" default = Some v -> exists t, v = VDict t) ->
  (forall v, dict_get "templates" entry = Some v -> exists t, v = VDict t) ->
  exists v, merge_repo (VDict default) (VDict entry) k = Ok v.
Proof.
  intros Hd He. unfold merge_repo, py_pop, dict_pop, dict_get_default. simpl.
  destruct (dict_get "templates" default) as [tv |] eqn:E1.
  - destruct (Hd tv eq_refl) as [t ->].
    destruct (dict_get "templates" entry) as [ev |] eqn:E2.
    + destruct (He ev eq_refl) as [t' ->]. simpl. eauto.
    + simpl. eauto.
  - destruct (dict_get "templates" entry) as [ev |] eqn:E2.
    + destruct (He ev eq_refl) as [t' ->]. simpl. eauto.
    + simpl. eauto.
Qed.

Lemma merge_repos_names (default : value) (repos : dict) :
  forall (ks : list string) (res : list dict),
    merge_repos default repos ks = Ok res ->
    map (dict_get "name") res = map (fun k => Some (VStr k)) ks.
Proof.
  induction ks as [| k rest IH]; intros res H; simpl in H.
  - inversion H. reflexivity.
  - destruct (dict_getitem k repos) as [entry | e]; simpl in H; [| discriminate].
    destruct (merge_repo default entry k) as [v | e] eqn:Hv;
      simpl in H; [| discriminate].
    destruct (merge_repos default repos rest) as [res' | e];
      simpl in H; [| discriminate].
    inversion H; subst. simpl.
    rewrite (merge_repo_name _ _ _ _ Hv), (IH res' eq_refl). reflexivity.
Qed.

(** C2: whatever the repo list is, when [parse_repos] returns, the [name]
    of each entry it returns is the key the entry was built from, also
    when DEFAULT or the entry itself sets [name]; the entries come in the
    sorted order of the keys of the file (DEFAULT left out). *)
Theorem parse_repos_names_sorted :
  forall (w w' : World) (res : list dict),
    parse_repos w = (Ok res, w') ->
    exists repos : dict,
      load_json REPOS_JSON w = (Ok (VDict repos), w')
      /\ let ks := sorted (keys (dict_remove REPOS_DEFAULT_KW repos)) in
         map (dict_get "name") res = map (fun k => Some (VStr k)) ks
         /\ StronglySorted str_le ks
         /\ Permutation ks (keys (dict_remove REPOS_DEFAULT_KW repos)).
Proof.
  intros w w' res H. unfold parse_repos, bind, lift in H.
  destruct (load_json REPOS_JSON w) as [[v | e] w1] eqn:Hload;
    [| discriminate].
  inversion H as [[Hres Hw]]. subst w1.
  destruct v; try discriminate. simpl in Hres.
  exists d. split; [reflexivity |]. simpl.
  split; [| split].
  - eapply merge_repos_names. exact Hres.
  - apply sorted_ordered.
  - apply sorted_permutation.
Qed.

Lemma parse_repos_names_sorted_witness :
  parse_repos named_world = (Ok named_result, named_world)
  /\ exists repos : dict,
       load_json REPOS_JSON named_world = (Ok (VDict repos), named_world)
       /\ let ks := sorted (keys (dict_remove REPOS_DEFAULT_KW repos)) in
          map (dict_get "name") named_result = map (fun k => Some (VStr k)) ks
          /\ StronglySorted str_le ks
          /\ Permutation ks (keys (dict_remove REPOS_DEFAULT_KW repos)).
Proof.
  split; [reflexivity |].
  apply (parse_repos_names_sorted named_world named_world named_result). reflexivity.
Defined.

(** ** prep_repo: reference resolution *)

Lemma strip_leading_v (s : string) :
  (if startswith "v" s then drop_first s else s)
  = match s with String "v" rest => rest | _ => s end.
Proof.
  destruct s as [| c rest]; [reflexivity |].
  destruct c as [[] [] [] [] [] [] [] []]; try reflexivity.
  destruct rest; reflexivity.
Qed.

Lemma ref_version_of_string (repo_d : dict) (s : string) :
  ref_version_of repo_d (VStr s)
  = Ok (if truthy (dict_get_default "ref_is_version" (VBool false) repo_d)
        then VStr match s with String "v" rest => rest | _ => s end
        else VNone).
Proof.
  unfold ref_version_of. rewrite strip_leading_v.
  now destruct (truthy _).
Qed.

Lemma candidates_name (rs : list Reference) (full : value) (r : Reference) :
  In r (candidates rs full) -> In r rs /\ full = VStr (name r).
Proof.
  unfold candidates. rewrite filter_In. intros [Hin Heq]. split; auto.
  destruct full; try discriminate. simpl in Heq.
  apply String.eqb_eq in Heq. now subst.
Qed.




(** The two rounds of the loop, when reading [repo.refs] gives [rs]. *)
Lemma resolve_ref_rounds (git : Git) (repo : Repo) (repo_d : dict)
      (s : string) (rs : list Reference) (w : World) :
  refs git repo w = (Ok rs, w) ->
  resolve_ref git repo repo_d (VStr s) [tag; branch] w
  = (match candidates rs (VStr s) with
     | r :: _ => rbind (ref_version_of repo_d (VStr s))
                       (fun v => Ok (Some (tag, r), v))
     | [] =>
         match candidates rs (VStr ("origin/" ++ s)) with
         | r :: _ => rbind (ref_version_of repo_d (VStr s))
                           (fun v => Ok (Some (branch, r), v))
         | [] => Ok (None, VNone)
         end
     end, w).
Proof.
  intros Hrefs. simpl. unfold bind, lift. rewrite Hrefs.
  destruct (candidates rs (VStr s)).
  - rewrite Hrefs.
    match goal with
    | |- context [candidates rs (VStr (String ?c ?o))] =>
        destruct (candidates rs (VStr (String c o)))
    end; [reflexivity |].
    destruct (ref_version_of repo_d (VStr s)); reflexivity.
  - destruct (ref_version_of repo_d (VStr s)); reflexivity.
Qed.




(** C7: when a reference was found, the ref is a string [s] and the
    version derived from it is: with [ref_is_version] set, [s] without its
    first character when that is "v", and [s] itself otherwise, so exactly
    one leading "v" is taken away; with [ref_is_version] unset (or false),
    no version. The ref [v1.2.0] gives [1.2.0]. *)
Theorem derived_version :
  forall (git : Git) (repo : Repo) (repo_d : dict) (w w' : World)
         (t : ref_type) (r : Reference) (ref_version : value),
    find_ref git repo repo_d w = (Ok (Some (t, r), ref_version), w') ->
    exists s : string,
      dict_get "ref" repo_d = Some (VStr s)
      /\ ref_version
         = (if truthy (dict_get_default "ref_is_version" (VBool false) repo_d)
            then VStr match s with String "v" rest => rest | _ => s end
            else VNone)
      /\ (dict_get "ref_is_version" repo_d = None -> ref_version = VNone)
      /\ (s = "v1.2.0" -> dict_get "ref_is_version" repo_d = Some (VBool true) ->
          ref_version = VStr "1.2.0").
Proof.
  intros git repo repo_d w w' t r rv H.
  unfold find_ref in H.
  destruct (dict_get "ref" repo_d) as [ref_name |] eqn:Href;
    [| unfold ret in H; discriminate].
  assert (Hs : exists s, ref_name = VStr s /\ ref_version_of repo_d ref_name = Ok rv).
  { simpl in H. unfold bind, lift, ret in H.
    destruct (refs git repo w) as [[rs | e] w1]; [| discriminate].
    destruct (candidates rs ref_name) as [| r1 rest1] eqn:Hc1.
    - destruct ref_name; try discriminate. exists s. split; [reflexivity |].
      destruct (refs git repo w1) as [[rs2 | e] w2]; [| discriminate].
      match type of H with
      | context [candidates rs2 ?full] => destruct (candidates rs2 full)
      end; [discriminate |].
      destruct (ref_version_of repo_d (VStr s)); [| discriminate].
      inversion H; subst. reflexivity.
    - assert (Hin : In r1 (candidates rs ref_name)) by (rewrite Hc1; now left).
      apply candidates_name in Hin. destruct Hin as [_ ->].
      exists (name r1). split; [reflexivity |].
      destruct (ref_version_of repo_d (VStr (name r1))); [| discriminate].
      inversion H; subst. reflexivity. }
  destruct Hs as (s & -> & Hrv). exists s.
  rewrite ref_version_of_string in Hrv. inversion Hrv as [Hrv'].
  split; [reflexivity |]. split; [reflexivity |]. split.
  - intros Hnone. unfold dict_get_default. rewrite Hnone. reflexivity.
  - intros -> Htrue. unfold dict_get_default. rewrite Htrue. reflexivity.
Qed.

Lemma derived_version_witness :
  exists s : string,
    dict_get "ref" demo_repo_d = Some (VStr s)
    /\ VStr "1.2.0"
       = (if truthy (dict_get_default "ref_is_version" (VBool false) demo_repo_d)
          then VStr match s with String "v" rest => rest | _ => s end
          else VNone)
    /\ (dict_get "ref_is_version" demo_repo_d = None -> VStr "1.2.0" = VNone)
    /\ (s = "v1.2.0" ->
        dict_get "ref_is_version" demo_repo_d = Some (VBool true) ->
        VStr "1.2.0" = VStr "1.2.0").
Proof.
  apply (derived_version demo_git (mkRepo "/tmp/yoda-packages/demo")
           demo_repo_d demo_world demo_world tag
           (mkReference "v1.2.0" "refs/tags/v1.2.0")).
  reflexivity.
Defined.




(** ** gather_instructions *)

Lemma prep_repo_returns (format : string -> dict -> result string) (git : Git)
      (repo_d : dict) (wipe : bool) (w w1 : World) (repo : Repo)
      (version : value) :
  prep_repo format git repo_d wipe w = (Ok (repo, version), w1) ->
  exists wa wb t r derived,
    open_repo format git repo_d wipe w = (Ok repo, wa)
    /\ find_ref git repo repo_d wa = (Ok (Some (t, r), derived), wb)
    /\ checkout git repo r wb = (Ok tt, w1)
    /\ version = dict_get_default "version" derived repo_d.
Proof.
  unfold prep_repo, bind. intros H.
  destruct (open_repo format git repo_d wipe w) as [[repo' | e] wa];
    [| discriminate].
  destruct (find_ref git repo' repo_d wa) as [[[ref derived] | e] wb] eqn:Hf;
    [| discriminate].
  destruct ref as [[t r] |]; [| discriminate].
  destruct (checkout git repo' r wb) as [[[] | e] wc] eqn:Hc; [| discriminate].
  inversion H; subst. exists wa, wb, t, r, derived. auto.
Qed.

Lemma add_scripts_version (inst : string) (opnames : list string) :
  forall (fpm : dict) (w : World),
    ~ In "version" opnames ->
    exists fpm',
      add_scripts inst opnames fpm w = (Ok fpm', w)
      /\ dict_get "version" fpm' = dict_get "version" fpm.
Proof.
  induction opnames as [| opname rest IH]; intros fpm w Hnot; simpl.
  - exists fpm. split; reflexivity.
  - unfold bind, isfile.
    assert (Hrest : ~ In "version" rest) by (intros H; apply Hnot; now right).
    assert (Hne : "version" <> opname) by (intros H; apply Hnot; now left).
    match goal with
    | |- context [add_scripts inst rest ?f w] =>
        destruct (IH f w Hrest) as (fpm' & Hrun & Hget)
    end.
    exists fpm'. split; [exact Hrun |]. rewrite Hget.
    destruct (stat w (path_join inst opname)) as [[| c] |]; auto.
    now apply dict_get_set_other.
Qed.

Lemma set_defaults_version (git : Git) (name : string) (repo : Repo)
      (fpm : dict) (w wc wd : World) (c : Commit) (url : string) :
  commit git repo w = (Ok c, wc) ->
  remote_url git repo wc = (Ok url, wd) ->
  exists fpm',
    set_defaults git name repo fpm w = (Ok fpm', wd)
    /\ dict_get "version" fpm' = dict_get "version" fpm.
Proof.
  intros Hc Hu. unfold set_defaults, bind. rewrite Hc, Hu.
  eexists. split; [reflexivity |].
  now rewrite !dict_get_setdefault_other by discriminate.
Qed.

Lemma insert_excludes_version (fpm : dict) :
  dict_get "version" (insert_excludes fpm) = dict_get "version" fpm.
Proof. unfold insert_excludes. now apply dict_get_set_other. Qed.

(** Lines 178-180 by cases on the value [version] ends with. *)
Lemma set_version_cases (name : string) (version : value) (fpm : dict) :
  let v := match dict_get "version" fpm with
           | Some v' => v'
           | None => version
           end in
  match v with
  | VNone =>
      set_version name version fpm
      = Err (Raise Exception ("No version for " ++ name))
  | _ =>
      exists fpm',
        set_version name version fpm = Ok fpm'
        /\ dict_get "version" fpm' = Some v
  end.
Proof.
  unfold set_version, dict_setdefault.
  destruct (dict_get "version" fpm) as [v' |] eqn:Hget; simpl.
  - destruct v'; try reflexivity; eexists; split; try reflexivity; exact Hget.
  - destruct version; try reflexivity; eexists; (split; [reflexivity |]);
      apply dict_get_set_same.
Qed.

Lemma script_names_not_version : ~ In "version" script_names.
Proof.
  simpl. intros H.
  repeat (destruct H as [H | H]; [discriminate H |]). exact H.
Qed.

(** C1: when [prep_repo] has returned the repository and its version, and
    [gather_instructions] finds the instructions, loads fpm.json and reads
    the commit and the remote, the version of the package dict is the one
    the order of precedence gives: the [version] of fpm.json, else the
    [version] of the repository entry, else the version derived from the
    ref. When that is [None] (as it is when none of the three is present)
    [gather_instructions] raises "No version for <name>" and returns no
    dict; otherwise it returns a dict with that version. *)
Theorem version_precedence_chain :
  forall (CWD : string) (format : string -> dict -> result string) (git : Git)
         (repo_d : dict) (wipe : bool) (w0 w1 wa wb wc wd : World)
         (repo : Repo) (version : value) (name inst url : string)
         (fpm0 : dict) (c : Commit),
    prep_repo format git repo_d wipe w0 = (Ok (repo, version), w1) ->
    find_instructions CWD name repo w1 = (Ok inst, wa) ->
    load_fpm inst wa = (Ok fpm0, wb) ->
    commit git repo wb = (Ok c, wc) ->
    remote_url git repo wc = (Ok url, wd) ->
    exists derived : value,
      (exists w2 w3 t r,
          find_ref git repo repo_d w2 = (Ok (Some (t, r), derived), w3))
      /\ version = version_precedence None (dict_get "version" repo_d) derived
      /\ (let v := version_precedence (dict_get "version" fpm0)
                     (dict_get "version" repo_d) derived in
          match v with
          | VNone =>
              gather_instructions CWD git name repo version w1
              = (Err (Raise Exception ("No version for " ++ name)), wd)
          | _ =>
              exists fpm,
                gather_instructions CWD git name repo version w1 = (Ok fpm, wd)
                /\ dict_get "version" fpm = Some v
          end)
      /\ (dict_get "version" fpm0 = None ->
          dict_get "version" repo_d = None ->
          derived = VNone ->
          gather_instructions CWD git name repo version w1
          = (Err (Raise Exception ("No version for " ++ name)), wd)).
Proof.
  intros CWD format git repo_d wipe w0 w1 wa wb wc wd repo version name inst
         url fpm0 c Hprep Hfind Hload Hc Hu.
  destruct (prep_repo_returns _ _ _ _ _ _ _ _ Hprep)
    as (w2 & w3 & t & r & derived & _ & Hderived & _ & Hversion).
  exists derived.
  assert (Hchain :
            let v := version_precedence (dict_get "version" fpm0)
                       (dict_get "version" repo_d) derived in
            match v with
            | VNone =>
                gather_instructions CWD git name repo version w1
                = (Err (Raise Exception ("No version for " ++ name)), wd)
            | _ =>
                exists fpm,
                  gather_instructions CWD git name repo version w1 = (Ok fpm, wd)
                  /\ dict_get "version" fpm = Some v
            end).
  { destruct (add_scripts_version inst script_names fpm0 wb
                script_names_not_version) as (fpm1 & Hscripts & Hv1).
    destruct (set_defaults_version git name repo fpm1 wb wc wd c url Hc Hu)
      as (fpm2 & Hdefaults & Hv2).
    pose proof (set_version_cases name version (insert_excludes fpm2)) as Hset.
    rewrite insert_excludes_version, Hv2, Hv1 in Hset.
    assert (Hrun : gather_instructions CWD git name repo version w1
                   = (set_version name version (insert_excludes fpm2), wd)).
    { unfold gather_instructions, bind, lift.
      now rewrite Hfind, Hload, Hscripts, Hdefaults. }
    rewrite Hrun. subst version.
    unfold version_precedence, dict_get_default in *.
    cbv zeta in Hset |- *.
    destruct (match dict_get "version" fpm0 with
              | Some v' => v'
              | None => match dict_get "version" repo_d with
                        | Some v => v
                        | None => derived
                        end
              end); try (destruct Hset as (fpm & -> & Hget); eauto).
    now rewrite Hset. }
  split; [eauto |]. split; [exact Hversion |]. split; [exact Hchain |].
  intros H0 Hr Hd. cbv zeta in Hchain.
  now rewrite H0, Hr, Hd in Hchain.
Qed.

Lemma version_precedence_chain_witness :
  exists derived : value,
    (exists w2 w3 t r,
        find_ref demo_git demo_repo demo_repo_d w2
        = (Ok (Some (t, r), derived), w3))
    /\ VStr "1.2.0"
       = version_precedence None (dict_get "version" demo_repo_d) derived
    /\ (let v := version_precedence
                   (dict_get "version" [("description", VStr "demo pkg")])
                   (dict_get "version" demo_repo_d) derived in
        match v with
        | VNone =>
            gather_instructions "/work" demo_git "demo" demo_repo
                                (VStr "1.2.0") cloned_world
            = (Err (Raise Exception ("No version for " ++ "demo")),
               cloned_world)
        | _ =>
            exists fpm,
              gather_instructions "/work" demo_git "demo" demo_repo
                                  (VStr "1.2.0") cloned_world
              = (Ok fpm, cloned_world)
              /\ dict_get "version" fpm = Some v
        end)
    /\ (dict_get "version" [("description", VStr "demo pkg")] = None ->
        dict_get "version" demo_repo_d = None ->
        derived = VNone ->
        gather_instructions "/work" demo_git "demo" demo_repo
                            (VStr "1.2.0") cloned_world
        = (Err (Raise Exception ("No version for " ++ "demo")), cloned_world)).
Proof.
  apply (version_precedence_chain "/work" simple_format demo_git demo_repo_d
           false cloned_world cloned_world cloned_world cloned_world
           cloned_world cloned_world demo_repo (VStr "1.2.0") "demo"
           "/work/instructions/demo" "https://github.com/acme/demo"
           [("description", VStr "demo pkg")] demo_commit);
    reflexivity.
Defined.

(** The scenario of the end-to-end test, and the two explicit versions. *)
Example gather_instructions_demo :
  gather_instructions "/work" demo_git "demo" demo_repo (VStr "1.2.0")
                      cloned_world
  = (Ok demo_fpm, cloned_world).
Proof. reflexivity. Qed.

Example fpm_version_wins :
  fst (prep_repo simple_format demo_git pinned_repo_d false pinned_world)
  = Ok (demo_repo, VStr "2.0")
  /\ exists fpm,
       fst (gather_instructions "/work" demo_git "demo" demo_repo (VStr "2.0")
                                pinned_world) = Ok fpm
       /\ dict_get "version" fpm = Some (VStr "9.9").
Proof. split; [reflexivity |]. eexists. split; reflexivity. Qed.

Example no_version_at_all :
  fst (gather_instructions "/work" demo_git "demo" demo_repo VNone cloned_world)
  = Err (Raise Exception "No version for demo").
Proof. reflexivity. Qed.

(** *** Where the instructions are taken from *)

(** The [packaging] directory of the working copy is taken when it
    exists, [instructions/<name>] under the start directory otherwise. *)
Lemma find_instructions_priority (CWD name : string) (repo : Repo) (w : World) :
  let ginst := path_join (path_join CWD "instructions") name in
  let linst := path_join (working_dir repo) "packaging" in
  find_instructions CWD name repo w
  = match stat w linst, stat w ginst with
    | Some Dir, _ => (Ok linst, w)
    | _, Some Dir => (Ok ginst, w)
    | _, _ => (Err (unbound_local "inst"), w)
    end.
Proof.
  unfold find_instructions, bind, isdir, ret, raise. cbv zeta.
  destruct (stat w (path_join (working_dir repo) "packaging"))
    as [[| c] |] eqn:Hl; try rewrite Hl;
    destruct (stat w (path_join (path_join CWD "instructions") name))
      as [[| c'] |] eqn:Hg; try rewrite Hg; reflexivity.
Qed.

(** When neither directory exists [gather_instructions] stops at line 139,
    where [inst] is read without having been assigned; fpm.json is not
    looked at, and the world is as it was. *)
Lemma gather_instructions_neither (CWD : string) (git : Git) (name : string)
      (repo : Repo) (version : value) (w : World) :
  stat w (path_join (working_dir repo) "packaging") <> Some Dir ->
  stat w (path_join (path_join CWD "instructions") name) <> Some Dir ->
  gather_instructions CWD git name repo version w
  = (Err (unbound_local "inst"), w).
Proof.
  intros Hl Hg. unfold gather_instructions, bind.
  rewrite find_instructions_priority. cbv zeta.
  destruct (stat w (path_join (working_dir repo) "packaging")) as [[| c] |];
    try congruence;
    destruct (stat w (path_join (path_join CWD "instructions") name))
      as [[| c'] |]; congruence.
Qed.

(** The exception of line 140 is never raised. *)
Lemma find_instructions_line_140_dead (CWD name : string) (repo : Repo)
      (w : World) :
  fst (find_instructions CWD name repo w)
  <> Err (Raise Exception "No instructions path found").
Proof.
  rewrite find_instructions_priority. cbv zeta.
  destruct (stat w (path_join (working_dir repo) "packaging")) as [[| c] |];
    destruct (stat w (path_join (path_join CWD "instructions") name))
      as [[| c'] |]; discriminate.
Qed.

(** C5 on a world where neither [packaging] in the working copy nor
    [instructions/demo] exists: [gather_instructions] fails and loads
    nothing, but the failure is the unassigned [inst] of line 139, not the
    exception "No instructions path found" of line 140. With both
    directories present the [packaging] directory is the one taken. *)
Theorem gather_instructions_without_instructions :
  stat bare_world (path_join (working_dir demo_repo) "packaging") = None
  /\ stat bare_world (path_join (path_join "/work" "instructions") "demo") = None
  /\ gather_instructions "/work" demo_git "demo" demo_repo (VStr "1.2.0")
                         bare_world
     = (Err (unbound_local "inst"), bare_world)
  /\ unbound_local "inst" <> Raise Exception "No instructions path found"
  /\ find_instructions "/work" "demo" demo_repo packaging_world
     = (Ok "/tmp/yoda-packages/demo/packaging", packaging_world)
  /\ find_instructions "/work" "demo" demo_repo cloned_world
     = (Ok "/work/instructions/demo", cloned_world).
Proof.
  repeat split; try reflexivity. discriminate.
Qed.

(** ** The whole run *)

(** The end-to-end scenario: [demo] is cloned, the tag [v1.2.0] gives the
    version [1.2.0], and fpm is run once with it. *)
Example main_demo :
  fst (main "/work" simple_format demo_git fpm_succeeds demo_world) = Ok tt
  /\ ran (snd (main "/work" simple_format demo_git fpm_succeeds demo_world))
     = [ base_cmds "/tmp/yoda-packages/packages"
         ++ [ "--description"; "demo pkg";
              "--iteration"; "1500000000.01234567";
              "--url"; "https://github.com/acme/demo";
              "--name"; "demo";
              "--architecture"; "noarch";
              "--input-type"; "dir";
              "--exclude"; "*/.git*";
              "--version"; "1.2.0" ] ].
Proof. split; reflexivity. Qed.

(** * Further properties of the program *)

(** ** More on dicts *)

Lemma dict_get_none_keys (k : string) (d : dict) :
  dict_get k d = None <-> ~ In k (keys d).
Proof.
  induction d as [| [k' v'] rest IH]; simpl.
  - tauto.
  - destruct (k =? k') eqn:E.
    + apply String.eqb_eq in E. subst. split; [discriminate | tauto].
    + apply String.eqb_neq in E. rewrite IH. split; [| tauto].
      intros H [H' | H']; [congruence | tauto].
Qed.

Lemma dict_get_remove_other (k k' : string) (d : dict) :
  k <> k' -> dict_get k (dict_remove k' d) = dict_get k d.
Proof.
  intros Hne. induction d as [| [k2 v2] rest IH]; simpl; auto.
  destruct (k' =? k2) eqn:E; simpl.
  - apply String.eqb_eq in E. subst k2.
    apply String.eqb_neq in Hne. now rewrite Hne.
  - now rewrite IH.
Qed.

Lemma keys_remove_incl (k k' : string) (d : dict) :
  In k (keys (dict_remove k' d)) -> In k (keys d).
Proof.
  induction d as [| [k2 v2] rest IH]; simpl; auto.
  destruct (k' =? k2); simpl; tauto.
Qed.

Lemma keys_remove_NoDup (k : string) (d : dict) :
  NoDup (keys d) -> NoDup (keys (dict_remove k d)).
Proof.
  induction d as [| [k2 v2] rest IH]; simpl; auto.
  intros H. inversion H as [| ? ? Hnot Hrest]; subst.
  destruct (k =? k2); simpl; auto.
  constructor; auto. intros Hin. apply Hnot. eapply keys_remove_incl; eauto.
Qed.

Lemma dict_get_remove_same (k : string) (d : dict) :
  NoDup (keys d) -> dict_get k (dict_remove k d) = None.
Proof.
  induction d as [| [k2 v2] rest IH]; simpl; auto.
  intros H. inversion H as [| ? ? Hnot Hrest]; subst.
  destruct (k =? k2) eqn:E; simpl.
  - apply String.eqb_eq in E. subst k2. now apply dict_get_none_keys.
  - rewrite E. auto.
Qed.

Lemma keys_set_incl (k k' : string) (v : value) (d : dict) :
  In k (keys (dict_set k' v d)) -> k = k' \/ In k (keys d).
Proof.
  induction d as [| [k2 v2] rest IH]; simpl.
  - intros [H | []]; auto.
  - destruct (k' =? k2); simpl; tauto.
Qed.

Lemma keys_set_NoDup (k : string) (v : value) (d : dict) :
  NoDup (keys d) -> NoDup (keys (dict_set k v d)).
Proof.
  induction d as [| [k2 v2] rest IH]; simpl.
  - intros _. repeat constructor. simpl. tauto.
  - intros H. inversion H as [| ? ? Hnot Hrest]; subst.
    destruct (k =? k2) eqn:E; simpl.
    + constructor; auto.
    + constructor; auto. intros Hin.
      apply keys_set_incl in Hin. destruct Hin as [-> | Hin]; auto.
      now rewrite String.eqb_refl in E.
Qed.

(** What [d.update(other)] leaves under a key: the entry of [other] when it
    has one, the entry of [d] otherwise. *)
Lemma dict_get_update (k : string) (other : dict) :
  forall d : dict,
    NoDup (keys other) ->
    dict_get k (dict_update d other)
    = match dict_get k other with
      | Some v => Some v
      | None => dict_get k d
      end.
Proof.
  unfold dict_update.
  induction other as [| [k' v'] rest IH]; intros d Hnd; simpl; auto.
  inversion Hnd as [| ? ? Hnot Hrest]; subst.
  rewrite IH by assumption.
  destruct (k =? k') eqn:E.
  - apply String.eqb_eq in E. subst k'.
    apply dict_get_none_keys in Hnot. rewrite Hnot.
    apply dict_get_set_same.
  - apply String.eqb_neq in E. now rewrite dict_get_set_other.
Qed.

(** ** More on parse_repos *)

(** Lines 268-276 for a DEFAULT and an entry that are objects whose
    [templates] are objects (or absent). *)
Lemma merge_repo_objects (default entry : dict) (k : string) (dt et : dict) :
  dict_get_default "templates" (VDict []) default = VDict dt ->
  dict_get_default "templates" (VDict []) entry = VDict et ->
  merge_repo (VDict default) (VDict entry) k
  = Ok (dict_set "templates" (VDict (dict_update dt et))
          (dict_set "name" (VStr k)
             (dict_update (dict_remove "templates" default)
                          (dict_remove "templates" entry)))).
Proof.
  intros Hd He. unfold merge_repo, py_pop, dict_pop. rewrite Hd. simpl.
  rewrite He. reflexivity.
Qed.

(** X1: the [templates] of a merged entry are the DEFAULT templates
    updated with the templates of the entry: a template of the entry
    replaces the DEFAULT template of the same name, and the other DEFAULT
    templates are kept. *)
Theorem merge_repo_templates :
  forall (default entry dt et : dict) (k : string),
    dict_get_default "templates" (VDict []) default = VDict dt ->
    dict_get_default "templates" (VDict []) entry = VDict et ->
    NoDup (keys et) ->
    exists (v t : dict),
      merge_repo (VDict default) (VDict entry) k = Ok v
      /\ dict_get "templates" v = Some (VDict t)
      /\ forall key : string,
           dict_get key t
           = match dict_get key et with
             | Some x => Some x
             | None => dict_get key dt
             end.
Proof.
  intros default entry dt et k Hd He Hnd.
  eexists. exists (dict_update dt et).
  split; [apply (merge_repo_objects default entry k dt et Hd He) |].
  split; [apply dict_get_set_same |].
  intros key. now apply dict_get_update.
Qed.

Lemma NoDup_keys_two (a b : string) (x y : value) :
  a <> b -> NoDup (keys [(a, x); (b, y)]).
Proof.
  intros Hne. simpl. apply NoDup_cons.
  - simpl. intros [H | []]. congruence.
  - apply NoDup_cons; [simpl; tauto | apply NoDup_nil].
Qed.

Lemma merge_repo_templates_witness :
  exists (v t : dict),
    merge_repo
      (VDict [("templates", VDict [("a", VStr "1"); ("b", VStr "2")])])
      (VDict [("fork", VStr "acme");
              ("templates", VDict [("b", VStr "3"); ("c", VStr "4")])])
      "demo"
    = Ok v
    /\ dict_get "templates" v = Some (VDict t)
    /\ forall key : string,
         dict_get key t
         = match dict_get key [("b", VStr "3"); ("c", VStr "4")] with
           | Some x => Some x
           | None => dict_get key [("a", VStr "1"); ("b", VStr "2")]
           end.
Proof.
  apply (merge_repo_templates
           [("templates", VDict [("a", VStr "1"); ("b", VStr "2")])]
           [("fork", VStr "acme");
            ("templates", VDict [("b", VStr "3"); ("c", VStr "4")])]
           [("a", VStr "1"); ("b", VStr "2")]
           [("b", VStr "3"); ("c", VStr "4")] "demo").
  - reflexivity.
  - reflexivity.
  - apply NoDup_keys_two. discriminate.
Defined.

(** X2: in a merged entry every key other than [name] and [templates]
    has the value of the entry when the entry sets it, and the value of
    DEFAULT otherwise. *)
Theorem merge_repo_entry_overrides :
  forall (default entry v : dict) (k key : string),
    merge_repo (VDict default) (VDict entry) k = Ok v ->
    NoDup (keys entry) ->
    key <> "name" ->
    key <> "templates" ->
    dict_get key v
    = match dict_get key entry with
      | Some x => Some x
      | None => dict_get key default
      end.
Proof.
  intros default entry v k key H Hnd Hname Htpl.
  unfold merge_repo, py_pop, dict_pop in H. simpl in H.
  destruct (dict_get_default "templates" (VDict []) default);
    try discriminate.
  simpl in H.
  destruct (py_update d (dict_get_default "templates" (VDict []) entry));
    simpl in H; [| discriminate].
  inversion H; subst.
  rewrite !dict_get_set_other by assumption.
  rewrite dict_get_update by now apply keys_remove_NoDup.
  now rewrite !dict_get_remove_other by assumption.
Qed.

Lemma merge_repo_entry_overrides_witness :
  dict_get "fork"
    (dict_set "templates" (VDict [])
       (dict_set "name" (VStr "demo")
          [("fork", VStr "acme"); ("ref", VStr "v1.2.0")]))
  = match dict_get "fork" [("fork", VStr "acme")] with
    | Some x => Some x
    | None => dict_get "fork" [("fork", VStr "hpcugent"); ("ref", VStr "v1.2.0")]
    end.
Proof.
  apply (merge_repo_entry_overrides
           [("fork", VStr "hpcugent"); ("ref", VStr "v1.2.0")]
           [("fork", VStr "acme")]
           (dict_set "templates" (VDict [])
              (dict_set "name" (VStr "demo")
                 [("fork", VStr "acme"); ("ref", VStr "v1.2.0")]))
           "demo" "fork").
  - reflexivity.
  - simpl. apply NoDup_cons; [simpl; tauto | apply NoDup_nil].
  - discriminate.
  - discriminate.
Defined.

Lemma merge_repo_has_templates (default entry : value) (k : string) (v : dict) :
  merge_repo default entry k = Ok v ->
  exists t, dict_get "templates" v = Some (VDict t).
Proof.
  unfold merge_repo. intros H.
  destruct (py_pop default "templates" (VDict [])) as [[tpls d] | e];
    simpl in H; [| discriminate].
  destruct tpls; try discriminate.
  destruct (py_pop entry "templates" (VDict [])) as [[etpls e] | e];
    simpl in H; [| discriminate].
  destruct (py_update d0 etpls) as [tpls | e']; simpl in H; [| discriminate].
  inversion H; subst. eexists. apply dict_get_set_same.
Qed.

Lemma merge_repos_have_templates (default : value) (repos : dict) :
  forall (ks : list string) (res : list dict),
    merge_repos default repos ks = Ok res ->
    Forall (fun v => exists t, dict_get "templates" v = Some (VDict t)) res.
Proof.
  induction ks as [| k rest IH]; intros res H; simpl in H.
  - inversion H. constructor.
  - destruct (dict_getitem k repos) as [entry | e]; simpl in H; [| discriminate].
    destruct (merge_repo default entry k) as [v | e] eqn:Hv;
      simpl in H; [| discriminate].
    destruct (merge_repos default repos rest) as [res' | e];
      simpl in H; [| discriminate].
    inversion H; subst. constructor; auto.
    eapply merge_repo_has_templates; eauto.
Qed.

(** X3: every entry [parse_repos] returns has a [templates] that is a
    dict, whatever the file holds: [make_package] can always hand it to
    [run_fpm] as template data. *)
Theorem parse_repos_templates_are_dicts :
  forall (w w' : World) (res : list dict),
    parse_repos w = (Ok res, w') ->
    Forall (fun v => exists t, dict_get "templates" v = Some (VDict t)) res.
Proof.
  intros w w' res H. unfold parse_repos, bind, lift in H.
  destruct (load_json REPOS_JSON w) as [[v | e] w1]; [| discriminate].
  inversion H as [[Hres Hw]].
  destruct v; try discriminate. simpl in Hres.
  eapply merge_repos_have_templates; eauto.
Qed.

Lemma parse_repos_templates_are_dicts_witness :
  Forall (fun v => exists t, dict_get "templates" v = Some (VDict t))
         named_result.
Proof.
  apply (parse_repos_templates_are_dicts named_world named_world named_result).
  reflexivity.
Defined.

Lemma merge_repo_not_object (default entry : value) (k : string) :
  (forall d, entry <> VDict d) ->
  exists e, merge_repo default entry k = Err e.
Proof.
  intros Hno. unfold merge_repo.
  destruct (py_pop default "templates" (VDict [])) as [[tpls d] | e];
    simpl; [| eauto].
  destruct tpls; eauto.
  destruct entry; simpl; eauto.
  now destruct (Hno d1).
Qed.

Lemma merge_repos_not_object (default : value) (repos : dict) (k : string)
      (v : value) :
  dict_get k repos = Some v ->
  (forall d, v <> VDict d) ->
  forall ks : list string,
    In k ks ->
    exists e, merge_repos default repos ks = Err e.
Proof.
  intros Hget Hno. induction ks as [| k0 rest IH]; intros Hin; simpl.
  - contradiction.
  - destruct (dict_getitem k0 repos) as [entry | e] eqn:Hitem; simpl; [| eauto].
    destruct (merge_repo default entry k0) as [v0 | e] eqn:Hv; simpl; [| eauto].
    destruct Hin as [-> | Hin].
    + unfold dict_getitem in Hitem. rewrite Hget in Hitem.
      inversion Hitem; subst.
      destruct (merge_repo_not_object default entry k Hno) as [e He].
      congruence.
    + destruct (IH Hin) as [e He]. rewrite He. simpl. eauto.
Qed.

(** X4: one entry that is not an object makes [parse_repos] fail as a
    whole: no entry is returned, whatever the other entries are. *)
Theorem parse_repos_rejects_non_object_entry :
  forall (w : World) (repos : dict) (k : string) (v : value),
    stat w REPOS_JSON = Some (File (Parses (VDict repos))) ->
    k <> REPOS_DEFAULT_KW ->
    dict_get k repos = Some v ->
    (forall d, v <> VDict d) ->
    exists e, parse_repos w = (Err e, w).
Proof.
  intros w repos k v Hstat Hk Hget Hno.
  unfold parse_repos, bind, lift, load_json. rewrite Hstat. simpl.
  assert (Hget' : dict_get k (dict_remove REPOS_DEFAULT_KW repos) = Some v)
    by now rewrite dict_get_remove_other.
  assert (Hin : In k (sorted (keys (dict_remove REPOS_DEFAULT_KW repos)))).
  { apply Permutation_in with (keys (dict_remove REPOS_DEFAULT_KW repos)).
    - symmetry. apply sorted_permutation.
    - destruct (in_dec string_dec k (keys (dict_remove REPOS_DEFAULT_KW repos)))
        as [Hin | Hnot]; auto.
      apply dict_get_none_keys in Hnot. congruence. }
  destruct (merge_repos_not_object
              (dict_get_default REPOS_DEFAULT_KW (VDict []) repos)
              (dict_remove REPOS_DEFAULT_KW repos) k v Hget' Hno _ Hin)
    as [e He].
  exists e. unfold dict_pop. simpl. now rewrite He.
Qed.

Lemma parse_repos_rejects_non_object_entry_witness :
  exists e,
    parse_repos (world_with_repos (VDict scalar_entry_repos))
    = (Err e, world_with_repos (VDict scalar_entry_repos)).
Proof.
  apply (parse_repos_rejects_non_object_entry
           (world_with_repos (VDict scalar_entry_repos))
           scalar_entry_repos "beta" (VInt 5)).
  - reflexivity.
  - discriminate.
  - reflexivity.
  - discriminate.
Defined.

(** X5: a repo list with no entry besides DEFAULT (or none at all) gives
    no repository; [main] then succeeds without touching the world. DEFAULT
    is not looked into in that case: it may be any value. *)
Theorem main_without_repositories :
  forall (CWD : string) (format : string -> dict -> result string) (git : Git)
         (check_output : list string -> M string) (w : World) (repos : dict),
    stat w REPOS_JSON = Some (File (Parses (VDict repos))) ->
    repos = [] \/ (exists default, repos = [(REPOS_DEFAULT_KW, default)]) ->
    parse_repos w = (Ok [], w)
    /\ main CWD format git check_output w = (Ok tt, w).
Proof.
  intros CWD format git check_output w repos Hstat Hrepos.
  assert (Hparse : parse_repos w = (Ok [], w)).
  { unfold parse_repos, bind, lift, load_json. rewrite Hstat.
    destruct Hrepos as [-> | [default ->]]; reflexivity. }
  split; [exact Hparse |].
  unfold main, bind. rewrite Hparse. reflexivity.
Qed.

Lemma main_without_repositories_witness :
  parse_repos (world_with_repos (VDict default_only_repos))
  = (Ok [], world_with_repos (VDict default_only_repos))
  /\ main "/work" simple_format demo_git fpm_succeeds
          (world_with_repos (VDict default_only_repos))
     = (Ok tt, world_with_repos (VDict default_only_repos)).
Proof.
  apply (main_without_repositories "/work" simple_format demo_git fpm_succeeds
           (world_with_repos (VDict default_only_repos)) default_only_repos).
  - reflexivity.
  - right. exists (VInt 7). reflexivity.
Defined.

(** ** More on gather_instructions *)

Lemma dict_get_setdefault_same (k : string) (v : value) (d : dict) :
  dict_get k (snd (dict_setdefault k v d)) = Some (dict_get_default k v d).
Proof.
  unfold dict_setdefault, dict_get_default.
  destruct (dict_get k d) eqn:E; simpl; auto using dict_get_set_same.
Qed.

Lemma keys_setdefault_incl (k k' : string) (v : value) (d : dict) :
  In k (keys (snd (dict_setdefault k' v d))) -> k = k' \/ In k (keys d).
Proof.
  unfold dict_setdefault. destruct (dict_get k' d); simpl; auto.
  apply keys_set_incl.
Qed.

Lemma find_instructions_reads (CWD name : string) (repo : Repo) (w w' : World)
      (inst : string) :
  find_instructions CWD name repo w = (Ok inst, w') ->
  w' = w /\ stat w inst = Some Dir.
Proof.
  rewrite find_instructions_priority. cbv zeta.
  destruct (stat w (path_join (working_dir repo) "packaging"))
    as [[| c] |] eqn:Hl;
    try (intros H; inversion H; subst; auto; fail);
    destruct (stat w (path_join (path_join CWD "instructions") name))
      as [[| c'] |] eqn:Hg;
    intros H; inversion H; subst; auto.
Qed.

Lemma check_keys_ok (ks : list string) :
  check_keys ks = Ok tt -> Forall (fun k => len k <> 1) ks.
Proof.
  induction ks as [| k rest IH]; simpl; intros H.
  - constructor.
  - destruct (len k =? 1)%nat eqn:E; [discriminate |].
    apply Nat.eqb_neq in E. constructor; auto.
Qed.

(** The first key of length one is the one reported. *)
Lemma check_keys_short (ks : list string) :
  Exists (fun k => len k = 1) ks ->
  exists before k after,
    ks = before ++ k :: after
    /\ Forall (fun k' => len k' <> 1) before
    /\ len k = 1
    /\ check_keys ks
       = Err (Raise Exception
                ("Found single letter " ++ k ++ " (i.e. short option)")).
Proof.
  induction ks as [| k0 rest IH]; intros H.
  - inversion H.
  - simpl. destruct (len k0 =? 1)%nat eqn:E.
    + apply Nat.eqb_eq in E. exists [], k0, rest. repeat split; auto.
    + apply Nat.eqb_neq in E.
      inversion H as [? ? H0 | ? ? H0]; subst; [contradiction |].
      destruct (IH H0) as (before & k & after & -> & Hb & Hk & Hc).
      exists (k0 :: before), k, after. repeat split; auto.
Qed.

Lemma load_fpm_reads (inst : string) (w w' : World) (fpm0 : dict) :
  load_fpm inst w = (Ok fpm0, w') ->
  w' = w
  /\ stat w (path_join inst FPM_JSON) = Some (File (Parses (VDict fpm0)))
  /\ check_keys (keys fpm0) = Ok tt.
Proof.
  unfold load_fpm, bind, isfile, load_json, lift, ret, raise.
  destruct (stat w (path_join inst FPM_JSON)) as [[| [v | cls msg]] |] eqn:Hs;
    try rewrite Hs; try discriminate.
  destruct v as [| | | | | | d]; try discriminate.
  destruct (check_keys (keys d)) as [[] | e] eqn:Hc; [| discriminate].
  intros H. inversion H; subst. auto.
Qed.

(** Lines 152-158: what the loop over the script names leaves in the
    dict. *)
Lemma add_scripts_lookup (inst : string) (opnames : list string) :
  NoDup opnames ->
  forall (fpm : dict) (w : World),
  exists fpm' : dict,
    add_scripts inst opnames fpm w = (Ok fpm', w)
    /\ (forall key,
           In key opnames ->
           dict_get key fpm'
           = match stat w (path_join inst key) with
             | Some (File _) => Some (VStr (path_join inst key))
             | _ => dict_get key fpm
             end)
    /\ (forall key, ~ In key opnames -> dict_get key fpm' = dict_get key fpm)
    /\ (forall key, In key (keys fpm') -> In key opnames \/ In key (keys fpm)).
Proof.
  induction opnames as [| opname rest IH]; intros Hnd fpm w; simpl.
  - exists fpm. repeat split; auto. contradiction.
  - inversion Hnd as [| ? ? Hnot Hrest]; subst.
    unfold bind, isfile.
    match goal with
    | |- context [add_scripts inst rest ?f w] =>
        destruct (IH Hrest f w) as (fpm' & Hrun & Hin & Hout & Hkeys);
        set (fpm1 := f) in *
    end.
    assert (Hsame : dict_get opname fpm1
                    = match stat w (path_join inst opname) with
                      | Some (File _) => Some (VStr (path_join inst opname))
                      | _ => dict_get opname fpm
                      end).
    { subst fpm1.
      destruct (stat w (path_join inst opname)) as [[| c] |]; auto.
      apply dict_get_set_same. }
    assert (Hother : forall key, key <> opname ->
                                 dict_get key fpm1 = dict_get key fpm).
    { intros key Hne. subst fpm1.
      destruct (stat w (path_join inst opname)) as [[| c] |]; auto.
      now apply dict_get_set_other. }
    assert (Hk1 : forall key, In key (keys fpm1) ->
                              key = opname \/ In key (keys fpm)).
    { intros key. subst fpm1.
      destruct (stat w (path_join inst opname)) as [[| c] |]; auto.
      apply keys_set_incl. }
    exists fpm'. split; [exact Hrun |]. split; [| split].
    + intros key [<- | Hkey].
      * rewrite (Hout opname Hnot). exact Hsame.
      * rewrite (Hin key Hkey).
        assert (Hne : key <> opname) by (intros ->; contradiction).
        now rewrite (Hother key Hne).
    + intros key Hkey. simpl in Hkey. rewrite Hout by tauto.
      apply Hother. intros ->. tauto.
    + intros key Hkey. apply Hkeys in Hkey.
      destruct Hkey as [Hkey | Hkey]; [simpl; tauto |].
      apply Hk1 in Hkey. destruct Hkey as [-> | Hkey]; simpl; tauto.
Qed.

Lemma script_names_NoDup : NoDup script_names.
Proof.
  simpl.
  repeat (apply NoDup_cons;
          [simpl; intros H;
           repeat (destruct H as [H | H]; [discriminate H |]); exact H |]).
  apply NoDup_nil.
Qed.

(** Lines 160-167: what the defaults leave in the dict. *)
Lemma set_defaults_lookup (git : Git) (name : string) (repo : Repo)
      (fpm fpm' : dict) (w w' : World) :
  set_defaults git name repo fpm w = (Ok fpm', w') ->
  exists (c : Commit) (wc : World) (url : string),
    commit git repo w = (Ok c, wc)
    /\ remote_url git repo wc = (Ok url, w')
    /\ dict_get "iteration" fpm'
       = Some (dict_get_default "iteration"
                 (VStr (str_of_int (committed_date c) ++ "."
                        ++ substring 0 8 (hexsha c))) fpm)
    /\ dict_get "url" fpm' = Some (dict_get_default "url" (VStr url) fpm)
    /\ dict_get "name" fpm' = Some (dict_get_default "name" (VStr name) fpm)
    /\ dict_get "architecture" fpm'
       = Some (dict_get_default "architecture" (VStr DEFAULT_ARCH) fpm)
    /\ dict_get "input-type" fpm'
       = Some (dict_get_default "input-type" (VStr DEFAULT_INPUT_TYPE) fpm)
    /\ (forall key,
           ~ In key ["iteration"; "url"; "name"; "architecture"; "input-type"] ->
           dict_get key fpm' = dict_get key fpm)
    /\ (forall key,
           In key (keys fpm') ->
           In key ["iteration"; "url"; "name"; "architecture"; "input-type"]
           \/ In key (keys fpm)).
Proof.
  unfold set_defaults, bind, ret. intros H.
  destruct (commit git repo w) as [[c | e] wc] eqn:Hc; [| discriminate].
  destruct (remote_url git repo wc) as [[url | e] wu] eqn:Hu; [| discriminate].
  inversion H; subst. clear H.
  exists c, wc, url. split; [reflexivity |]. split; [exact Hu |].
  unfold dict_get_default.
  repeat split.
  - rewrite 4 dict_get_setdefault_other by discriminate.
    apply dict_get_setdefault_same.
  - rewrite 3 dict_get_setdefault_other by discriminate.
    rewrite dict_get_setdefault_same. unfold dict_get_default.
    now rewrite dict_get_setdefault_other by discriminate.
  - rewrite 2 dict_get_setdefault_other by discriminate.
    rewrite dict_get_setdefault_same. unfold dict_get_default.
    now rewrite 2 dict_get_setdefault_other by discriminate.
  - rewrite dict_get_setdefault_other by discriminate.
    rewrite dict_get_setdefault_same. unfold dict_get_default.
    now rewrite 3 dict_get_setdefault_other by discriminate.
  - rewrite dict_get_setdefault_same. unfold dict_get_default.
    now rewrite 4 dict_get_setdefault_other by discriminate.
  - intros key Hkey. simpl in Hkey.
    rewrite 5 dict_get_setdefault_other; auto; intros ->; tauto.
  - intros key Hkey. simpl.
    repeat (apply keys_setdefault_incl in Hkey;
            destruct Hkey as [-> | Hkey]; [tauto |]).
    tauto.
Qed.

(** Lines 178-180: a returned dict is the given one with [version] set. *)
Lemma set_version_lookup (name : string) (version : value) (d fpm : dict) :
  set_version name version d = Ok fpm ->
  (forall key, key <> "version" -> dict_get key fpm = dict_get key d)
  /\ (forall key, In key (keys fpm) -> key = "version" \/ In key (keys d)).
Proof.
  unfold set_version, dict_setdefault.
  destruct (dict_get "version" d) as [v |].
  - destruct v; intros H; inversion H; subst; auto.
  - destruct version; intros H; inversion H; subst;
      (split; [intros key Hne; now apply dict_get_set_other
              | intros key Hk; now apply keys_set_incl in Hk]).
Qed.

(** The steps of a run of [gather_instructions] that returns. *)
Lemma gather_instructions_returns (CWD : string) (git : Git) (name : string)
      (repo : Repo) (version : value) (w w' : World) (fpm : dict) :
  gather_instructions CWD git name repo version w = (Ok fpm, w') ->
  exists (inst : string) (fpm0 fpm1 fpm2 : dict),
    find_instructions CWD name repo w = (Ok inst, w)
    /\ load_fpm inst w = (Ok fpm0, w)
    /\ add_scripts inst script_names fpm0 w = (Ok fpm1, w)
    /\ set_defaults git name repo fpm1 w = (Ok fpm2, w')
    /\ set_version name version (insert_excludes fpm2) = Ok fpm.
Proof.
  unfold gather_instructions, bind, lift. intros H.
  destruct (find_instructions CWD name repo w) as [[inst | e] w1] eqn:Hf;
    [| discriminate].
  destruct (find_instructions_reads _ _ _ _ _ _ Hf) as [-> _].
  destruct (load_fpm inst w) as [[fpm0 | e] w2] eqn:Hl; [| discriminate].
  destruct (load_fpm_reads _ _ _ _ Hl) as [-> _].
  destruct (add_scripts_lookup inst script_names script_names_NoDup fpm0 w)
    as (fpm1 & Hs & _).
  rewrite Hs in H.
  destruct (set_defaults git name repo fpm1 w) as [[fpm2 | e] w3] eqn:Hd;
    [| discriminate].
  destruct (set_version name version (insert_excludes fpm2)) as [fpm' | e]
    eqn:Hv; [| discriminate].
  inversion H; subst.
  exists inst, fpm0, fpm1, fpm2. auto.
Qed.

Lemma script_names_long : Forall (fun k => len k <> 1) script_names.
Proof. simpl. repeat constructor; discriminate. Qed.

(** X6: a dict returned by [gather_instructions] has no key of length
    one: the keys of fpm.json were checked, and every key the function adds
    is longer. *)
Theorem gather_instructions_no_short_keys :
  forall (CWD : string) (git : Git) (name : string) (repo : Repo)
         (version : value) (w w' : World) (fpm : dict),
    gather_instructions CWD git name repo version w = (Ok fpm, w') ->
    Forall (fun k => len k <> 1) (keys fpm).
Proof.
  intros CWD git name repo version w w' fpm H.
  destruct (gather_instructions_returns _ _ _ _ _ _ _ _ H)
    as (inst & fpm0 & fpm1 & fpm2 & _ & Hl & Hs & Hd & Hv).
  apply load_fpm_reads in Hl. destruct Hl as (_ & _ & Hc).
  apply check_keys_ok in Hc. rewrite Forall_forall in Hc.
  destruct (add_scripts_lookup inst script_names script_names_NoDup fpm0 w)
    as (fpm1' & Hs' & _ & _ & Hk1).
  assert (fpm1' = fpm1) by congruence. subst fpm1'.
  destruct (set_defaults_lookup _ _ _ _ _ _ _ Hd)
    as (c & wc & url & _ & _ & _ & _ & _ & _ & _ & _ & Hk2).
  destruct (set_version_lookup _ _ _ _ Hv) as [_ Hk3].
  pose proof script_names_long as Hlong. rewrite Forall_forall in Hlong.
  apply Forall_forall. intros k Hk.
  apply Hk3 in Hk. destruct Hk as [-> | Hk]; [discriminate |].
  unfold insert_excludes in Hk. apply keys_set_incl in Hk.
  destruct Hk as [-> | Hk]; [discriminate |].
  apply Hk2 in Hk. destruct Hk as [Hk | Hk].
  - simpl in Hk.
    repeat (destruct Hk as [<- | Hk]; [discriminate |]). contradiction.
  - apply Hk1 in Hk. destruct Hk as [Hk | Hk]; auto.
Qed.

Lemma gather_instructions_no_short_keys_witness :
  Forall (fun k => len k <> 1) (keys scripted_fpm).
Proof.
  apply (gather_instructions_no_short_keys "/work" demo_git "demo" demo_repo
           (VStr "1.2.0") scripted_world scripted_world scripted_fpm).
  reflexivity.
Defined.

(** X7: when fpm.json has a key of length one, [gather_instructions]
    raises "Found single letter <k>" for the first such key, in the order
    of the file, and the world is as it was. *)
Theorem gather_instructions_short_option :
  forall (CWD : string) (git : Git) (name : string) (repo : Repo)
         (version : value) (w : World) (inst : string) (fpm0 : dict),
    find_instructions CWD name repo w = (Ok inst, w) ->
    stat w (path_join inst FPM_JSON) = Some (File (Parses (VDict fpm0))) ->
    Exists (fun k => len k = 1) (keys fpm0) ->
    exists (before : list string) (k : string) (after : list string),
      keys fpm0 = before ++ k :: after
      /\ Forall (fun k' => len k' <> 1) before
      /\ len k = 1
      /\ gather_instructions CWD git name repo version w
         = (Err (Raise Exception
                   ("Found single letter " ++ k ++ " (i.e. short option)")),
            w).
Proof.
  intros CWD git name repo version w inst fpm0 Hf Hs Hex.
  destruct (check_keys_short (keys fpm0) Hex)
    as (before & k & after & Hkeys & Hb & Hk & Hc).
  exists before, k, after. repeat split; auto.
  unfold gather_instructions, bind. rewrite Hf.
  unfold load_fpm, bind, isfile, load_json, lift. rewrite Hs.
  cbv beta iota. rewrite Hs. rewrite Hc. reflexivity.
Qed.

Lemma gather_instructions_short_option_witness :
  exists (before : list string) (k : string) (after : list string),
    keys [ ("description", VStr "demo pkg"); ("d", VStr "dep");
           ("s", VStr "dir") ]
    = before ++ k :: after
    /\ Forall (fun k' => len k' <> 1) before
    /\ len k = 1
    /\ gather_instructions "/work" demo_git "demo" demo_repo (VStr "1.2.0")
                           short_option_world
       = (Err (Raise Exception
                 ("Found single letter " ++ k ++ " (i.e. short option)")),
          short_option_world).
Proof.
  apply (gather_instructions_short_option "/work" demo_git "demo" demo_repo
           (VStr "1.2.0") short_option_world
           "/tmp/yoda-packages/demo/packaging").
  - reflexivity.
  - reflexivity.
  - simpl. apply Exists_cons_tl. apply Exists_cons_hd. reflexivity.
Defined.

(** X8: in a dict returned by [gather_instructions] each of [iteration],
    [url], [name], [architecture] and [input-type] has the value fpm.json
    gives it, and the default only when fpm.json does not have the key:
    commit date and the first eight characters of the commit hash, the url
    of the remote, the repository name, [noarch] and [dir]. *)
Theorem gather_instructions_defaults :
  forall (CWD : string) (git : Git) (name : string) (repo : Repo)
         (version : value) (w w' : World) (fpm : dict),
    gather_instructions CWD git name repo version w = (Ok fpm, w') ->
    exists (inst : string) (fpm0 : dict) (c : Commit) (wc : World)
           (url : string),
      load_fpm inst w = (Ok fpm0, w)
      /\ commit git repo w = (Ok c, wc)
      /\ remote_url git repo wc = (Ok url, w')
      /\ dict_get "iteration" fpm
         = Some (dict_get_default "iteration"
                   (VStr (str_of_int (committed_date c) ++ "."
                          ++ substring 0 8 (hexsha c))) fpm0)
      /\ dict_get "url" fpm = Some (dict_get_default "url" (VStr url) fpm0)
      /\ dict_get "name" fpm = Some (dict_get_default "name" (VStr name) fpm0)
      /\ dict_get "architecture" fpm
         = Some (dict_get_default "architecture" (VStr "noarch") fpm0)
      /\ dict_get "input-type" fpm
         = Some (dict_get_default "input-type" (VStr "dir") fpm0).
Proof.
  intros CWD git name repo version w w' fpm H.
  destruct (gather_instructions_returns _ _ _ _ _ _ _ _ H)
    as (inst & fpm0 & fpm1 & fpm2 & _ & Hl & Hs & Hd & Hv).
  destruct (add_scripts_lookup inst script_names script_names_NoDup fpm0 w)
    as (fpm1' & Hs' & _ & Hout & _).
  assert (fpm1' = fpm1) by congruence. subst fpm1'.
  destruct (set_defaults_lookup _ _ _ _ _ _ _ Hd)
    as (c & wc & url & Hc & Hu & Hi & Hurl & Hn & Ha & Ht & _).
  destruct (set_version_lookup _ _ _ _ Hv) as [Hkeep _].
  assert (Hnot : forall key,
             In key ["iteration"; "url"; "name"; "architecture"; "input-type"] ->
             dict_get key fpm = dict_get key fpm2
             /\ dict_get key fpm1 = dict_get key fpm0).
  { intros key Hkey. split.
    - rewrite Hkeep.
      + unfold insert_excludes. apply dict_get_set_other.
        simpl in Hkey.
        repeat (destruct Hkey as [<- | Hkey]; [discriminate |]).
        contradiction.
      + simpl in Hkey.
        repeat (destruct Hkey as [<- | Hkey]; [discriminate |]).
        contradiction.
    - apply Hout. simpl in Hkey. simpl.
      repeat (destruct Hkey as [<- | Hkey];
              [intros Hs0;
               repeat (destruct Hs0 as [Hs0 | Hs0]; [discriminate Hs0 |]);
               exact Hs0 |]).
      contradiction. }
  exists inst, fpm0, c, wc, url.
  split; [exact Hl |]. split; [exact Hc |]. split; [exact Hu |].
  unfold dict_get_default in *.
  repeat split.
  - destruct (Hnot "iteration") as [-> <-]; simpl; auto.
  - destruct (Hnot "url") as [-> <-]; simpl; auto.
  - destruct (Hnot "name") as [-> <-]; simpl; auto.
  - destruct (Hnot "architecture") as [-> <-]; simpl; auto.
  - destruct (Hnot "input-type") as [-> <-]; simpl; auto 6.
Qed.

Lemma gather_instructions_defaults_witness :
  exists (inst : string) (fpm0 : dict) (c : Commit) (wc : World) (url : string),
    load_fpm inst scripted_world = (Ok fpm0, scripted_world)
    /\ commit demo_git demo_repo scripted_world = (Ok c, wc)
    /\ remote_url demo_git demo_repo wc = (Ok url, scripted_world)
    /\ dict_get "iteration" scripted_fpm
       = Some (dict_get_default "iteration"
                 (VStr (str_of_int (committed_date c) ++ "."
                        ++ substring 0 8 (hexsha c))) fpm0)
    /\ dict_get "url" scripted_fpm
       = Some (dict_get_default "url" (VStr url) fpm0)
    /\ dict_get "name" scripted_fpm
       = Some (dict_get_default "name" (VStr "demo") fpm0)
    /\ dict_get "architecture" scripted_fpm
       = Some (dict_get_default "architecture" (VStr "noarch") fpm0)
    /\ dict_get "input-type" scripted_fpm
       = Some (dict_get_default "input-type" (VStr "dir") fpm0).
Proof.
  apply (gather_instructions_defaults "/work" demo_git "demo" demo_repo
           (VStr "1.2.0") scripted_world scripted_world scripted_fpm).
  reflexivity.
Defined.

(** X9: in a dict returned by [gather_instructions], each of the six
    script names that is a file in the instructions directory has the path
    of that file as its value, also when fpm.json gave the key a value; a
    script name without a file has what fpm.json gave it, if anything. *)
Theorem gather_instructions_scripts :
  forall (CWD : string) (git : Git) (name : string) (repo : Repo)
         (version : value) (w w' : World) (fpm : dict),
    gather_instructions CWD git name repo version w = (Ok fpm, w') ->
    exists (inst : string) (fpm0 : dict),
      find_instructions CWD name repo w = (Ok inst, w)
      /\ load_fpm inst w = (Ok fpm0, w)
      /\ forall opname : string,
           In opname ["before-install"; "after-install"; "before-remove";
                      "after-remove"; "before-upgrade"; "after-upgrade"] ->
           dict_get opname fpm
           = match stat w (path_join inst opname) with
             | Some (File _) => Some (VStr (path_join inst opname))
             | _ => dict_get opname fpm0
             end.
Proof.
  intros CWD git name repo version w w' fpm H.
  destruct (gather_instructions_returns _ _ _ _ _ _ _ _ H)
    as (inst & fpm0 & fpm1 & fpm2 & Hf & Hl & Hs & Hd & Hv).
  destruct (add_scripts_lookup inst script_names script_names_NoDup fpm0 w)
    as (fpm1' & Hs' & Hin & _ & _).
  assert (fpm1' = fpm1) by congruence. subst fpm1'.
  destruct (set_defaults_lookup _ _ _ _ _ _ _ Hd)
    as (c & wc & url & _ & _ & _ & _ & _ & _ & _ & Hother & _).
  destruct (set_version_lookup _ _ _ _ Hv) as [Hkeep _].
  exists inst, fpm0. split; [exact Hf |]. split; [exact Hl |].
  intros opname Hop.
  change (In opname script_names) in Hop.
  rewrite <- (Hin opname Hop).
  assert (Hne : opname <> "version" /\ opname <> "exclude"
                /\ ~ In opname ["iteration"; "url"; "name"; "architecture";
                                "input-type"]).
  { simpl in Hop.
    repeat (destruct Hop as [<- | Hop];
            [repeat split; try discriminate;
             simpl; intros Hs0;
             repeat (destruct Hs0 as [Hs0 | Hs0]; [discriminate Hs0 |]);
             exact Hs0 |]).
    contradiction. }
  destruct Hne as (Hv1 & He1 & Hd1).
  rewrite (Hkeep opname Hv1). unfold insert_excludes.
  rewrite dict_get_set_other by assumption.
  now apply Hother.
Qed.

Lemma gather_instructions_scripts_witness :
  exists (inst : string) (fpm0 : dict),
    find_instructions "/work" "demo" demo_repo scripted_world
    = (Ok inst, scripted_world)
    /\ load_fpm inst scripted_world = (Ok fpm0, scripted_world)
    /\ forall opname : string,
         In opname ["before-install"; "after-install"; "before-remove";
                    "after-remove"; "before-upgrade"; "after-upgrade"] ->
         dict_get opname scripted_fpm
         = match stat scripted_world (path_join inst opname) with
           | Some (File _) => Some (VStr (path_join inst opname))
           | _ => dict_get opname fpm0
           end.
Proof.
  apply (gather_instructions_scripts "/work" demo_git "demo" demo_repo
           (VStr "1.2.0") scripted_world scripted_world scripted_fpm).
  reflexivity.
Defined.

(** X10: in a dict returned by [gather_instructions], [exclude] is a
    list that has the pattern [*/.git*]; it is the [exclude] of fpm.json
    (a scalar as a list of one, none as the empty list) with the default
    patterns it lacked appended. *)
Theorem gather_instructions_exclude :
  forall (CWD : string) (git : Git) (name : string) (repo : Repo)
         (version : value) (w w' : World) (fpm : dict),
    gather_instructions CWD git name repo version w = (Ok fpm, w') ->
    exists (inst : string) (fpm0 : dict) (excl : list value),
      load_fpm inst w = (Ok fpm0, w)
      /\ dict_get "exclude" fpm = Some (VList excl)
      /\ str_in "*/.git*" excl = true
      /\ excl = normalize_exclude EXCLUDE_DEFAULT
                  (dict_get_default "exclude" (VList []) fpm0).
Proof.
  intros CWD git name repo version w w' fpm H.
  destruct (gather_instructions_returns _ _ _ _ _ _ _ _ H)
    as (inst & fpm0 & fpm1 & fpm2 & Hf & Hl & Hs & Hd & Hv).
  destruct (add_scripts_lookup inst script_names script_names_NoDup fpm0 w)
    as (fpm1' & Hs' & _ & Hout & _).
  assert (fpm1' = fpm1) by congruence. subst fpm1'.
  destruct (set_defaults_lookup _ _ _ _ _ _ _ Hd)
    as (c & wc & url & _ & _ & _ & _ & _ & _ & _ & Hother & _).
  destruct (set_version_lookup _ _ _ _ Hv) as [Hkeep _].
  assert (Hsame : dict_get "exclude" fpm2 = dict_get "exclude" fpm0).
  { rewrite Hother.
    - apply Hout. simpl. intros Hs0.
      repeat (destruct Hs0 as [Hs0 | Hs0]; [discriminate Hs0 |]). exact Hs0.
    - simpl. intros Hs0.
      repeat (destruct Hs0 as [Hs0 | Hs0]; [discriminate Hs0 |]). exact Hs0. }
  exists inst, fpm0,
    (normalize_exclude EXCLUDE_DEFAULT
       (dict_get_default "exclude" (VList []) fpm0)).
  split; [exact Hl |]. split; [| split; [| reflexivity]].
  - rewrite Hkeep by discriminate. unfold insert_excludes.
    rewrite dict_get_set_same. unfold dict_get_default. now rewrite Hsame.
  - unfold normalize_exclude. apply add_excludes_complete.
    left. simpl. auto.
Qed.

Lemma gather_instructions_exclude_witness :
  exists (inst : string) (fpm0 : dict) (excl : list value),
    load_fpm inst scripted_world = (Ok fpm0, scripted_world)
    /\ dict_get "exclude" scripted_fpm = Some (VList excl)
    /\ str_in "*/.git*" excl = true
    /\ excl = normalize_exclude EXCLUDE_DEFAULT
                (dict_get_default "exclude" (VList []) fpm0).
Proof.
  apply (gather_instructions_exclude "/work" demo_git "demo" demo_repo
           (VStr "1.2.0") scripted_world scripted_world scripted_fpm).
  reflexivity.
Defined.

(** ** More on run_fpm *)

(** What an element appends does not depend on the lists built so far. *)
Lemma render_element_acc (format : string -> dict -> result string)
      (td : dict) (k : string) (v : value) (cmds args : list string) :
  render_element format td k v (cmds, args)
  = rbind (render_element format td k v ([], []))
          (fun out => Ok (cmds ++ fst out, args ++ snd out)).
Proof.
  destruct v; simpl; try reflexivity.
  - destruct b; simpl; now rewrite ?app_nil_r.
  - destruct (format s td); simpl; [| reflexivity].
    destruct (k =? ARGS_KW); simpl; now rewrite ?app_nil_r.
Qed.

Lemma render_values_acc (format : string -> dict -> result string)
      (td : dict) (k : string) :
  forall (vs : list value) (cmds args : list string),
    render_values format td k vs (cmds, args)
    = rbind (render_values format td k vs ([], []))
            (fun out => Ok (cmds ++ fst out, args ++ snd out)).
Proof.
  induction vs as [| v rest IH]; intros cmds args; cbn [render_values].
  - simpl. now rewrite !app_nil_r.
  - rewrite render_element_acc.
    destruct (render_element format td k v ([], [])) as [[c1 a1] | e];
      cbn [rbind fst snd app]; [| reflexivity].
    rewrite IH. rewrite (IH c1 a1).
    destruct (render_values format td k rest ([], [])) as [[c2 a2] | e];
      cbn [rbind fst snd]; [| reflexivity].
    now rewrite !app_assoc.
Qed.

Lemma render_items_acc (format : string -> dict -> result string) (td : dict) :
  forall (items : dict) (cmds args : list string),
    render_items format td items (cmds, args)
    = rbind (render_items format td items ([], []))
            (fun out => Ok (cmds ++ fst out, args ++ snd out)).
Proof.
  induction items as [| [k origs] rest IH]; intros cmds args;
    cbn [render_items].
  - simpl. now rewrite !app_nil_r.
  - rewrite render_values_acc.
    destruct (render_values format td k (as_list origs) ([], []))
      as [[c1 a1] | e]; cbn [rbind fst snd app]; [| reflexivity].
    rewrite IH. rewrite (IH c1 a1).
    destruct (render_items format td rest ([], [])) as [[c2 a2] | e];
      cbn [rbind fst snd]; [| reflexivity].
    now rewrite !app_assoc.
Qed.

Lemma render_items_app (format : string -> dict -> result string) (td : dict) :
  forall (items1 items2 : dict) (acc : list string * list string),
    render_items format td (items1 ++ items2) acc
    = rbind (render_items format td items1 acc)
            (fun acc' => render_items format td items2 acc').
Proof.
  induction items1 as [| [k origs] rest IH]; intros items2 acc; simpl.
  - reflexivity.
  - destruct (render_values format td k (as_list origs) acc) as [acc' | e];
      simpl; [apply IH | reflexivity].
Qed.

(** The values of an option that is not [ARGS]: flag and value, each
    value in turn. *)
Lemma render_values_option (format : string -> dict -> result string)
      (td : dict) (k : string) :
  k <> ARGS_KW ->
  forall (ss vs : list string),
    Forall2 (fun s v => format s td = Ok v) ss vs ->
    render_values format td k (map VStr ss) ([], [])
    = Ok (flat_map (fun v => [("--" ++ k)%string; v]) vs, []).
Proof.
  intros Hk. apply String.eqb_neq in Hk.
  induction 1 as [| s v ss vs Hsv Hrest IH]; cbn [map render_values].
  - reflexivity.
  - assert (He : render_element format td k (VStr s) ([], [])
                 = Ok ([("--" ++ k)%string; v], [])).
    { unfold render_element. rewrite Hsv. simpl. now rewrite Hk. }
    rewrite He. cbn [rbind].
    rewrite render_values_acc, IH. reflexivity.
Qed.

(** The values of [ARGS]: the values alone, kept aside. *)
Lemma render_values_args (format : string -> dict -> result string)
      (td : dict) :
  forall (ss vs : list string),
    Forall2 (fun s v => format s td = Ok v) ss vs ->
    render_values format td ARGS_KW (map VStr ss) ([], []) = Ok ([], vs).
Proof.
  induction 1 as [| s v ss vs Hsv Hrest IH]; cbn [map render_values].
  - reflexivity.
  - assert (He : render_element format td ARGS_KW (VStr s) ([], [])
                 = Ok ([], [v])).
    { unfold render_element. rewrite Hsv. reflexivity. }
    rewrite He. cbn [rbind].
    rewrite render_values_acc, IH. reflexivity.
Qed.

Lemma render_values_no_args (format : string -> dict -> result string)
      (td : dict) (k : string) :
  k <> ARGS_KW ->
  forall (vs : list value) (out : list string * list string),
    render_values format td k vs ([], []) = Ok out -> snd out = [].
Proof.
  intros Hk. apply String.eqb_neq in Hk.
  induction vs as [| v rest IH]; intros out H; cbn [render_values] in H.
  - inversion H. reflexivity.
  - destruct (render_element format td k v ([], [])) as [[c1 a1] | e] eqn:Hv;
      cbn [rbind] in H; [| discriminate].
    assert (a1 = []).
    { destruct v; simpl in Hv; try discriminate.
      - inversion Hv. reflexivity.
      - destruct (format s td); simpl in Hv; [| discriminate].
        rewrite Hk in Hv. inversion Hv. reflexivity. }
    subst a1. rewrite render_values_acc in H.
    destruct (render_values format td k rest ([], [])) as [[c2 a2] | e] eqn:Hr;
      cbn [rbind fst snd] in H; [| discriminate].
    inversion H; subst. simpl. apply (IH _ eq_refl).
Qed.

Lemma render_items_no_args (format : string -> dict -> result string)
      (td : dict) :
  forall (items : dict) (out : list string * list string),
    ~ In ARGS_KW (keys items) ->
    render_items format td items ([], []) = Ok out -> snd out = [].
Proof.
  induction items as [| [k origs] rest IH]; intros out Hno H;
    cbn [render_items] in H.
  - inversion H. reflexivity.
  - simpl in Hno.
    destruct (render_values format td k (as_list origs) ([], []))
      as [[c1 a1] | e] eqn:Hv; cbn [rbind] in H; [| discriminate].
    assert (Hk : k <> ARGS_KW) by tauto.
    pose proof (render_values_no_args format td k Hk _ _ Hv) as Ha.
    simpl in Ha. subst a1.
    rewrite render_items_acc in H.
    destruct (render_items format td rest ([], [])) as [[c2 a2] | e] eqn:Hr;
      cbn [rbind fst snd] in H; [| discriminate].
    inversion H; subst. simpl.
    apply (IH _ (fun Hin => Hno (or_intror Hin)) eq_refl).
Qed.

(** X11: the values of [ARGS] are the last words of the command, in
    their order, wherever the key [ARGS] stands in the dict: a dict with
    [ARGS] gives the command of the dict without it, followed by the
    rendered values of [ARGS]. *)
Theorem synthesize_args_last :
  forall (format : string -> dict -> result string) (pkgdir : string)
         (td items1 items2 : dict) (origs : value) (ss vs cmd : list string),
    ~ In ARGS_KW (keys items2) ->
    as_list origs = map VStr ss ->
    Forall2 (fun s v => format s td = Ok v) ss vs ->
    synthesize format pkgdir td (items1 ++ items2) = Ok cmd ->
    synthesize format pkgdir td (items1 ++ (ARGS_KW, origs) :: items2)
    = Ok (cmd ++ vs).
Proof.
  intros format pkgdir td items1 items2 origs ss vs cmd Hno Hlist Hfmt H.
  unfold synthesize in *.
  rewrite render_items_app in H. rewrite render_items_app.
  destruct (render_items format td items1 (base_cmds pkgdir, []))
    as [[c1 a1] | e]; simpl in *; [| discriminate].
  rewrite Hlist, render_values_acc, (render_values_args format td ss vs Hfmt).
  simpl. rewrite app_nil_r.
  rewrite render_items_acc in H. rewrite render_items_acc.
  destruct (render_items format td items2 ([], [])) as [[c2 a2] | e] eqn:H2;
    simpl in *; [| discriminate].
  pose proof (render_items_no_args format td items2 _ Hno H2) as Ha.
  simpl in Ha. subst a2. inversion H; subst.
  now rewrite !app_nil_r, !app_assoc.
Qed.

Lemma synthesize_args_last_witness :
  synthesize simple_format "/tmp/yoda-packages/packages"
             [("name", VStr "demo")]
             ([("name", VStr "demo")]
              ++ (ARGS_KW, VList [VStr "src/={name}"; VStr "etc/"])
              :: [("version", VStr "1.2.0")])
  = Ok ((base_cmds "/tmp/yoda-packages/packages"
          ++ ["--name"; "demo"; "--version"; "1.2.0"])
        ++ ["src/=demo"; "etc/"]).
Proof.
  apply (synthesize_args_last simple_format "/tmp/yoda-packages/packages"
           [("name", VStr "demo")] [("name", VStr "demo")]
           [("version", VStr "1.2.0")]
           (VList [VStr "src/={name}"; VStr "etc/"])
           ["src/={name}"; "etc/"] ["src/=demo"; "etc/"]).
  - simpl. intros [H | []]. discriminate H.
  - reflexivity.
  - repeat constructor.
  - reflexivity.
Defined.

(** X12: an option other than [ARGS] whose values are strings gives one
    pair of flag and rendered value for each value, in their order, a
    single string counting as a list of one; put after a dict without
    [ARGS] it extends the command by these pairs. *)
Theorem synthesize_repeated_option :
  forall (format : string -> dict -> result string) (pkgdir : string)
         (td items : dict) (key : string) (origs : value)
         (ss vs cmd : list string),
    key <> ARGS_KW ->
    ~ In ARGS_KW (keys items) ->
    as_list origs = map VStr ss ->
    Forall2 (fun s v => format s td = Ok v) ss vs ->
    synthesize format pkgdir td items = Ok cmd ->
    synthesize format pkgdir td (items ++ [(key, origs)])
    = Ok (cmd ++ flat_map (fun v => [("--" ++ key)%string; v]) vs).
Proof.
  intros format pkgdir td items key origs ss vs cmd Hkey Hno Hlist Hfmt H.
  unfold synthesize in *.
  rewrite render_items_app. rewrite render_items_acc in H.
  rewrite render_items_acc.
  destruct (render_items format td items ([], [])) as [[c1 a1] | e] eqn:H1;
    simpl in *; [| discriminate].
  pose proof (render_items_no_args format td items _ Hno H1) as Ha.
  simpl in Ha. subst a1. inversion H; subst.
  rewrite Hlist, render_values_acc,
    (render_values_option format td key Hkey ss vs Hfmt).
  simpl. now rewrite !app_nil_r.
Qed.

Lemma synthesize_repeated_option_witness :
  synthesize simple_format "/tmp/yoda-packages/packages"
             [("name", VStr "demo")]
             ([("name", VStr "demo")]
              ++ [("depends", VList [VStr "python"; VStr "{name}-common"])])
  = Ok ((base_cmds "/tmp/yoda-packages/packages" ++ ["--name"; "demo"])
        ++ flat_map (fun v => [("--" ++ "depends")%string; v])
                    ["python"; "demo-common"]).
Proof.
  apply (synthesize_repeated_option simple_format "/tmp/yoda-packages/packages"
           [("name", VStr "demo")] [("name", VStr "demo")] "depends"
           (VList [VStr "python"; VStr "{name}-common"])
           ["python"; "{name}-common"] ["python"; "demo-common"]).
  - discriminate.
  - simpl. intros [H | []]. discriminate H.
  - reflexivity.
  - repeat constructor.
  - reflexivity.
Defined.

(** One round of the loop of lines 207-210, for the key [k] that becomes
    [k2]. *)
Lemma rename_step (k k2 : string) (d : dict) :
  k <> k2 ->
  NoDup (keys d) ->
  let d' := if dict_has k d
            then dict_set k2 (dict_get_default k VNone d) (dict_remove k d)
            else d in
  dict_get k d' = None
  /\ dict_get k2 d'
     = match dict_get k d with
       | Some v => Some v
       | None => dict_get k2 d
       end
  /\ (forall key, key <> k -> key <> k2 -> dict_get key d' = dict_get key d)
  /\ NoDup (keys d').
Proof.
  intros Hne Hnd. unfold dict_has, dict_get_default.
  destruct (dict_get k d) as [v |] eqn:Hget; cbv zeta.
  - repeat split.
    + rewrite dict_get_set_other by assumption.
      now apply dict_get_remove_same.
    + apply dict_get_set_same.
    + intros key Hk Hk2. rewrite dict_get_set_other by assumption.
      now apply dict_get_remove_other.
    + apply keys_set_NoDup. now apply keys_remove_NoDup.
  - repeat split; auto.
Qed.

(** X13: after the renaming of lines 207-210 the dict has no [user] and
    no [group]; [rpm-user] has the value [user] had, or its own value when
    there was no [user], and likewise [rpm-group]; every other key has the
    value it had. *)
Theorem rename_generic_lookup :
  forall fpm : dict,
    NoDup (keys fpm) ->
    dict_get "user" (rename_generic fpm) = None
    /\ dict_get "group" (rename_generic fpm) = None
    /\ dict_get "rpm-user" (rename_generic fpm)
       = match dict_get "user" fpm with
         | Some v => Some v
         | None => dict_get "rpm-user" fpm
         end
    /\ dict_get "rpm-group" (rename_generic fpm)
       = match dict_get "group" fpm with
         | Some v => Some v
         | None => dict_get "rpm-group" fpm
         end
    /\ forall key : string,
         ~ In key ["user"; "group"; "rpm-user"; "rpm-group"] ->
         dict_get key (rename_generic fpm) = dict_get key fpm.
Proof.
  intros fpm Hnd.
  destruct (rename_step "user" "rpm-user" fpm ltac:(discriminate) Hnd)
    as (Hu1 & Hu2 & Hu3 & Hnd1).
  set (fpm1 := if dict_has "user" fpm
               then dict_set "rpm-user" (dict_get_default "user" VNone fpm)
                             (dict_remove "user" fpm)
               else fpm) in *.
  destruct (rename_step "group" "rpm-group" fpm1 ltac:(discriminate) Hnd1)
    as (Hg1 & Hg2 & Hg3 & _).
  assert (Hrun : rename_generic fpm
                 = if dict_has "group" fpm1
                   then dict_set "rpm-group"
                                 (dict_get_default "group" VNone fpm1)
                                 (dict_remove "group" fpm1)
                   else fpm1).
  { unfold rename_generic, fpm1, dict_pop. cbn [fold_left].
    destruct (dict_has "user" fpm); reflexivity. }
  rewrite Hrun. repeat split.
  - rewrite Hg3 by discriminate. exact Hu1.
  - exact Hg1.
  - rewrite Hg3 by discriminate. exact Hu2.
  - rewrite Hg2. now rewrite !Hu3 by discriminate.
  - intros key Hkey. simpl in Hkey.
    rewrite Hg3, Hu3; auto; intros ->; tauto.
Qed.

Lemma rename_generic_lookup_witness :
  dict_get "user" (rename_generic shadowed_fpm) = None
  /\ dict_get "group" (rename_generic shadowed_fpm) = None
  /\ dict_get "rpm-user" (rename_generic shadowed_fpm)
     = match dict_get "user" shadowed_fpm with
       | Some v => Some v
       | None => dict_get "rpm-user" shadowed_fpm
       end
  /\ dict_get "rpm-group" (rename_generic shadowed_fpm)
     = match dict_get "group" shadowed_fpm with
       | Some v => Some v
       | None => dict_get "rpm-group" shadowed_fpm
       end
  /\ forall key : string,
       ~ In key ["user"; "group"; "rpm-user"; "rpm-group"] ->
       dict_get key (rename_generic shadowed_fpm) = dict_get key shadowed_fpm.
Proof.
  apply (rename_generic_lookup shadowed_fpm).
  apply NoDup_keys_two. discriminate.
Defined.

(** ** More on prep_repo *)

Lemma rmtree_removes (p : string) (w : World) :
  stat (snd (rmtree p w)) p = None /\ cwd (snd (rmtree p w)) = cwd w.
Proof.
  unfold stat, rmtree. simpl. now rewrite String.eqb_refl.
Qed.

(** X14: with [wipe] set the working copy is never reused: a directory
    that exists is removed, it is gone when the clone starts, and the
    repository is cloned from the url of the entry. Without [wipe] a
    directory that exists is opened as it is, and the clone happens only
    when there is none. *)
Theorem open_repo_wipe_or_reuse :
  forall (format : string -> dict -> result string) (git : Git)
         (repo_d : dict) (name url : string) (w : World),
    dict_get "name" repo_d = Some (VStr name) ->
    format GITHUB_GIT repo_d = Ok url ->
    let repo_path := path_join PKG_AREA name in
    let wiped := match stat w repo_path with
                 | Some Dir => snd (rmtree repo_path w)
                 | _ => w
                 end in
    open_repo format git repo_d true w = clone_from git url repo_path wiped
    /\ stat wiped repo_path <> Some Dir
    /\ open_repo format git repo_d false w
       = match stat w repo_path with
         | Some Dir => Repo_ git repo_path w
         | _ => clone_from git url repo_path w
         end.
Proof.
  intros format git repo_d name url w Hname Hurl repo_path wiped.
  unfold open_repo, bind, lift, dict_getitem. rewrite Hname.
  cbn [os_path_join]. rewrite Hurl. fold repo_path.
  unfold isdir, ret. subst wiped.
  destruct (stat w repo_path) as [[| c] |] eqn:Hs; cbv beta iota.
  - destruct (rmtree_removes repo_path w) as [Hgone _].
    set (w1 := snd (rmtree repo_path w)) in *.
    assert (Hrm : rmtree repo_path w = (Ok tt, w1)) by reflexivity.
    rewrite Hrm, Hgone. repeat split. discriminate.
  - rewrite Hs. repeat split. discriminate.
  - rewrite Hs. repeat split. discriminate.
Qed.

Lemma open_repo_wipe_or_reuse_witness :
  let repo_path := path_join PKG_AREA "demo" in
  let wiped := match stat cloned_world repo_path with
               | Some Dir => snd (rmtree repo_path cloned_world)
               | _ => cloned_world
               end in
  open_repo simple_format demo_git demo_repo_d true cloned_world
  = clone_from demo_git "https://github.com/acme/demo" repo_path wiped
  /\ stat wiped repo_path <> Some Dir
  /\ open_repo simple_format demo_git demo_repo_d false cloned_world
     = match stat cloned_world repo_path with
       | Some Dir => Repo_ demo_git repo_path cloned_world
       | _ => clone_from demo_git "https://github.com/acme/demo" repo_path
                         cloned_world
       end.
Proof.
  apply (open_repo_wipe_or_reuse simple_format demo_git demo_repo_d "demo"
           "https://github.com/acme/demo" cloned_world);
    reflexivity.
Defined.

(** ** More on make_package and main *)

Lemma make_packages_app (CWD : string)
      (format : string -> dict -> result string) (git : Git)
      (check_output : list string -> M string) :
  forall (repos1 repos2 : list dict) (w : World),
    make_packages CWD format git check_output (repos1 ++ repos2) w
    = bind (make_packages CWD format git check_output repos1)
           (fun _ => make_packages CWD format git check_output repos2) w.
Proof.
  induction repos1 as [| r rest IH]; intros repos2 w; cbn [app make_packages].
  - reflexivity.
  - unfold bind in *.
    destruct (chdir CWD w) as [[[] | e] w1]; [| reflexivity].
    destruct (make_package CWD format git check_output r w1)
      as [[[] | e] w2]; [| reflexivity].
    apply IH.
Qed.

(** X15: the run stops at the first repository that fails: when the
    repositories before it went through and it raises [e], [main]'s loop
    ends with [e] in the world that repository left, whatever comes after
    it in the list; no later repository is prepared or packaged. *)
Theorem make_packages_stops_at_first_failure :
  forall (CWD : string) (format : string -> dict -> result string) (git : Git)
         (check_output : list string -> M string)
         (before after : list dict) (repo_d : dict) (w w1 w2 : World) (e : exn),
    make_packages CWD format git check_output before w = (Ok tt, w1) ->
    bind (chdir CWD)
         (fun _ => make_package CWD format git check_output repo_d) w1
    = (Err e, w2) ->
    make_packages CWD format git check_output (before ++ repo_d :: after) w
    = (Err e, w2).
Proof.
  intros CWD format git check_output before after repo_d w w1 w2 e Hb Hr.
  rewrite make_packages_app. unfold bind at 1. rewrite Hb.
  cbn [make_packages]. unfold bind in *.
  destruct (chdir CWD w1) as [[[] | e1] w3]; [| exact Hr].
  destruct (make_package CWD format git check_output repo_d w3)
    as [[[] | e2] w4]; [discriminate | exact Hr].
Qed.

Lemma make_packages_stops_at_first_failure_witness :
  make_packages "/work" simple_format demo_git fpm_succeeds
                ([] ++ unresolved_repo_d :: [demo_repo_d]) cloned_world
  = (Err (unbound_local "ref"), cloned_world).
Proof.
  apply (make_packages_stops_at_first_failure "/work" simple_format demo_git
           fpm_succeeds [] [demo_repo_d] unresolved_repo_d
           cloned_world cloned_world cloned_world (unbound_local "ref"));
    reflexivity.
Defined.

Lemma chdir_ok (p : string) (w w' : World) :
  chdir p w = (Ok tt, w') ->
  cwd w' = path_join (cwd w) p /\ stat w p = Some Dir.
Proof.
  unfold chdir. destruct (stat w p) as [[| c] |]; intros H;
    inversion H; subst; auto.
Qed.

(** X16: a [make_package] that returns leaves the process in the
    directory the program was started in (given as an absolute path): the
    last thing it does is to change back to it. *)
Theorem make_package_restores_cwd :
  forall (CWD : string) (format : string -> dict -> result string) (git : Git)
         (check_output : list string -> M string)
         (repo_d : dict) (w w' : World),
    startswith "/" CWD = true ->
    make_package CWD format git check_output repo_d w = (Ok tt, w') ->
    cwd w' = CWD.
Proof.
  intros CWD format git check_output repo_d w w' Habs H.
  unfold make_package, bind, lift, raise in H.
  destruct (dict_getitem "name" repo_d) as [name | e]; [| discriminate].
  destruct (prep_repo format git repo_d false w) as [[[repo rversion] | e] w1];
    [| discriminate].
  destruct name; try discriminate.
  destruct (gather_instructions CWD git s repo rversion w1)
    as [[fpm | e] w2]; [| discriminate].
  destruct (chdir (working_dir repo) w2) as [[[] | e] w3]; [| discriminate].
  destruct (dict_get_default "templates" (VDict []) repo_d);
    try discriminate.
  destruct (run_fpm format check_output fpm d w3) as [[[] | e] w4];
    [| discriminate].
  apply chdir_ok in H. destruct H as [-> _].
  unfold path_join. now rewrite Habs.
Qed.

Lemma make_package_restores_cwd_witness :
  cwd (snd (make_package "/work" simple_format demo_git fpm_succeeds
                         demo_repo_d cloned_world))
  = "/work".
Proof.
  apply (make_package_restores_cwd "/work" simple_format demo_git fpm_succeeds
           demo_repo_d cloned_world).
  - reflexivity.
  - reflexivity.
Defined.

(** ** The order of the entries of repos.json *)

Lemma dict_get_In (k : string) (v : value) (d : dict) :
  NoDup (keys d) -> (dict_get k d = Some v <-> In (k, v) d).
Proof.
  induction d as [| [k' v'] rest IH]; simpl; intros Hnd.
  - split; [discriminate | tauto].
  - inversion Hnd as [| ? ? Hnot Hrest]; subst.
    destruct (k =? k') eqn:E.
    + apply String.eqb_eq in E. subst k'. split.
      * intros H. inversion H. auto.
      * intros [H | H]; [congruence |].
        exfalso. apply Hnot. apply (in_map fst) in H. exact H.
    + apply String.eqb_neq in E. rewrite (IH Hrest). split; auto.
      intros [H | H]; [congruence | exact H].
Qed.

Lemma dict_get_permutation (k : string) (d1 d2 : dict) :
  NoDup (keys d1) -> Permutation d1 d2 -> dict_get k d1 = dict_get k d2.
Proof.
  intros Hnd Hp.
  assert (Hnd2 : NoDup (keys d2)).
  { eapply Permutation_NoDup; [| exact Hnd]. now apply Permutation_map. }
  destruct (dict_get k d1) as [v |] eqn:H1.
  - symmetry. apply dict_get_In; auto.
    eapply Permutation_in; [exact Hp |]. now apply dict_get_In.
  - symmetry. apply dict_get_none_keys. apply dict_get_none_keys in H1.
    intros Hin. apply H1.
    eapply Permutation_in; [| exact Hin].
    symmetry. now apply Permutation_map.
Qed.

Lemma strongly_sorted_unique (l1 : list string) :
  forall l2 : list string,
    StronglySorted str_le l1 -> StronglySorted str_le l2 ->
    Permutation l1 l2 -> l1 = l2.
Proof.
  induction l1 as [| a l1 IH]; intros l2 Hs1 Hs2 Hp.
  - apply Permutation_nil in Hp. now subst.
  - destruct l2 as [| b l2].
    + symmetry in Hp. apply Permutation_nil in Hp. discriminate.
    + inversion Hs1 as [| ? ? Hs1' Hall1]; subst.
      inversion Hs2 as [| ? ? Hs2' Hall2]; subst.
      rewrite Forall_forall in Hall1, Hall2.
      assert (Hab : a = b).
      { assert (Ha : In a (b :: l2))
          by (eapply Permutation_in; [exact Hp | now left]).
        assert (Hb : In b (a :: l1))
          by (eapply Permutation_in; [symmetry; exact Hp | now left]).
        destruct Ha as [<- | Ha]; [reflexivity |].
        destruct Hb as [<- | Hb]; [reflexivity |].
        apply String.leb_antisym; [apply Hall1 | apply Hall2]; assumption. }
      subst b. f_equal. apply IH; auto.
      eapply Permutation_cons_inv. exact Hp.
Qed.

Lemma sorted_of_permutation (l1 l2 : list string) :
  Permutation l1 l2 -> sorted l1 = sorted l2.
Proof.
  intros Hp. apply strongly_sorted_unique; try apply sorted_ordered.
  rewrite !sorted_permutation. exact Hp.
Qed.

Lemma merge_repos_lookup_ext (default : value) (repos1 repos2 : dict) :
  (forall k, dict_get k repos1 = dict_get k repos2) ->
  forall ks : list string,
    merge_repos default repos1 ks = merge_repos default repos2 ks.
Proof.
  intros Hext. induction ks as [| k rest IH]; simpl; auto.
  unfold dict_getitem. now rewrite Hext, IH.
Qed.

(** X17: what [parse_repos] returns does not depend on the order in
    which the entries stand in repos.json: two files with the same entries
    give the same list of repositories, in the same order. *)
Theorem parse_repos_order_independent :
  forall (w1 w2 : World) (repos1 repos2 : dict),
    stat w1 REPOS_JSON = Some (File (Parses (VDict repos1))) ->
    stat w2 REPOS_JSON = Some (File (Parses (VDict repos2))) ->
    NoDup (keys repos1) ->
    Permutation repos1 repos2 ->
    fst (parse_repos w1) = fst (parse_repos w2).
Proof.
  intros w1 w2 repos1 repos2 H1 H2 Hnd Hp.
  assert (Hnd2 : NoDup (keys repos2)).
  { eapply Permutation_NoDup; [| exact Hnd]. now apply Permutation_map. }
  unfold parse_repos, bind, lift, load_json. rewrite H1, H2.
  cbn [fst py_pop rbind]. unfold dict_pop, dict_get_default.
  rewrite <- (dict_get_permutation REPOS_DEFAULT_KW repos1 repos2 Hnd Hp).
  assert (Hext : forall k,
             dict_get k (dict_remove REPOS_DEFAULT_KW repos1)
             = dict_get k (dict_remove REPOS_DEFAULT_KW repos2)).
  { intros k. destruct (string_dec k REPOS_DEFAULT_KW) as [-> | Hne].
    - now rewrite !dict_get_remove_same.
    - rewrite !dict_get_remove_other by assumption.
      now apply dict_get_permutation. }
  assert (Hkeys : Permutation (keys (dict_remove REPOS_DEFAULT_KW repos1))
                              (keys (dict_remove REPOS_DEFAULT_KW repos2))).
  { apply NoDup_Permutation; try now apply keys_remove_NoDup.
    intros k.
    destruct (dict_get k (dict_remove REPOS_DEFAULT_KW repos1)) eqn:E.
    - split; intros _.
      + destruct (in_dec string_dec k
                    (keys (dict_remove REPOS_DEFAULT_KW repos2))) as [|Hn];
          auto.
        apply dict_get_none_keys in Hn. rewrite <- Hext in Hn. congruence.
      + destruct (in_dec string_dec k
                    (keys (dict_remove REPOS_DEFAULT_KW repos1))) as [|Hn];
          auto.
        apply dict_get_none_keys in Hn. congruence.
    - pose proof E as E2. rewrite Hext in E2.
      apply dict_get_none_keys in E. apply dict_get_none_keys in E2. tauto. }
  rewrite (sorted_of_permutation _ _ Hkeys).
  now rewrite (merge_repos_lookup_ext _ _ _ Hext).
Qed.

Lemma parse_repos_order_independent_witness :
  fst (parse_repos (world_with_repos (VDict named_repos_dict)))
  = fst (parse_repos (world_with_repos (VDict named_repos_reordered))).
Proof.
  apply (parse_repos_order_independent
           (world_with_repos (VDict named_repos_dict))
           (world_with_repos (VDict named_repos_reordered))
           named_repos_dict named_repos_reordered).
  - reflexivity.
  - reflexivity.
  - simpl.
    apply NoDup_cons; [simpl; intros [H | [H | []]]; discriminate H |].
    apply NoDup_cons; [simpl; intros [H | []]; discriminate H |].
    apply NoDup_cons; [simpl; tauto | apply NoDup_nil].
  - unfold named_repos_dict, named_repos_reordered.
    apply Permutation_sym.
    apply (Permutation_cons_app [_; _] []). reflexivity.
Defined.

(** ** Errors of fpm.json and of the ref *)

(** X18: once the instructions directory is found, what is wrong with
    its fpm.json decides the error of [gather_instructions]: no such file
    (or a directory of that name) gives "No FPM instructions <path>
    found"; content on which [json.load] raises gives what line 67 of
    [load_json] raises in its place, which for content that is not JSON
    (a [JSONDecodeError]) is a [TypeError]; JSON that is not an object
    gives an [AttributeError] for [keys]. In each case the world is
    untouched. *)
Theorem gather_instructions_fpm_json_errors :
  forall (CWD : string) (git : Git) (name : string) (repo : Repo)
         (version : value) (w : World) (inst : string),
    find_instructions CWD name repo w = (Ok inst, w) ->
    let fpm_json := path_join inst FPM_JSON in
    match stat w fpm_json with
    | Some (File (Parses (VDict _))) => True
    | Some (File (Parses v)) =>
        gather_instructions CWD git name repo version w
        = (Err (no_attribute v "keys"), w)
    | Some (File (Unparsable cls perr)) =>
        gather_instructions CWD git name repo version w
        = (Err (reraise cls (load_error_message fpm_json perr)), w)
        /\ (cls = JSONDecodeError ->
            exists msg : string,
              gather_instructions CWD git name repo version w
              = (Err (Raise TypeError msg), w))
    | _ =>
        gather_instructions CWD git name repo version w
        = (Err (Raise Exception
                  ("No FPM instructions " ++ fpm_json ++ " found")), w)
    end.
Proof.
  intros CWD git name repo version w inst Hf fpm_json.
  unfold gather_instructions, bind. rewrite Hf.
  unfold load_fpm, bind, isfile, load_json, raise. fold fpm_json.
  destruct (stat w fpm_json) as [[| [v | cls perr]] |] eqn:Hs;
    try rewrite Hs; try reflexivity.
  - destruct v; auto.
  - split; [reflexivity |]. intros ->. eexists. reflexivity.
Qed.

Lemma gather_instructions_fpm_json_errors_witness :
  let fpm_json := path_join "/tmp/yoda-packages/demo/packaging" FPM_JSON in
  match stat bad_fpm_json_world fpm_json with
  | Some (File (Parses (VDict _))) => True
  | Some (File (Parses v)) =>
      gather_instructions "/work" demo_git "demo" demo_repo (VStr "1.2.0")
                          bad_fpm_json_world
      = (Err (no_attribute v "keys"), bad_fpm_json_world)
  | Some (File (Unparsable cls perr)) =>
      gather_instructions "/work" demo_git "demo" demo_repo (VStr "1.2.0")
                          bad_fpm_json_world
      = (Err (reraise cls (load_error_message fpm_json perr)),
         bad_fpm_json_world)
      /\ (cls = JSONDecodeError ->
          exists msg : string,
            gather_instructions "/work" demo_git "demo" demo_repo
                                (VStr "1.2.0") bad_fpm_json_world
            = (Err (Raise TypeError msg), bad_fpm_json_world))
  | _ =>
      gather_instructions "/work" demo_git "demo" demo_repo (VStr "1.2.0")
                          bad_fpm_json_world
      = (Err (Raise Exception
                ("No FPM instructions " ++ fpm_json ++ " found")),
         bad_fpm_json_world)
  end.
Proof.
  apply (gather_instructions_fpm_json_errors "/work" demo_git "demo" demo_repo
           (VStr "1.2.0") bad_fpm_json_world
           "/tmp/yoda-packages/demo/packaging").
  reflexivity.
Defined.

Example gather_instructions_no_fpm_json :
  gather_instructions "/work" demo_git "demo" demo_repo (VStr "1.2.0")
                      no_fpm_json_world
  = (Err (Raise Exception
            "No FPM instructions /tmp/yoda-packages/demo/packaging/fpm.json found"),
     no_fpm_json_world).
Proof. reflexivity. Qed.

Example gather_instructions_bad_fpm_json :
  exists msg : string,
    gather_instructions "/work" demo_git "demo" demo_repo (VStr "1.2.0")
                        bad_fpm_json_world
    = (Err (Raise TypeError msg), bad_fpm_json_world)
    /\ occurs "fpm.json" msg = false.
Proof. eexists. split; reflexivity. Qed.

Lemma candidates_non_string (rs : list Reference) (v : value) :
  (forall s, v <> VStr s) -> candidates rs v = [].
Proof.
  intros Hv. unfold candidates.
  destruct v as [| b | n | m e | s' | l | d];
    try (induction rs as [| r rest IH]; simpl; auto; fail).
  now destruct (Hv s').
Qed.

(** X19: a ref that is not a string (a number, [null], a list) matches
    no reference in the first round and cannot be put behind [origin/] in
    the second: [prep_repo] fails with a [TypeError], before line 111 and
    before any checkout. *)
Theorem prep_repo_ref_not_a_string :
  forall (format : string -> dict -> result string) (git : Git)
         (repo_d : dict) (wipe : bool) (w w1 : World) (repo : Repo)
         (v : value) (rs : list Reference),
    open_repo format git repo_d wipe w = (Ok repo, w1) ->
    dict_get "ref" repo_d = Some v ->
    (forall s, v <> VStr s) ->
    refs git repo w1 = (Ok rs, w1) ->
    exists msg : string,
      prep_repo format git repo_d wipe w = (Err (Raise TypeError msg), w1).
Proof.
  intros format git repo_d wipe w w1 repo v rs Ho Href Hv Hrefs.
  unfold prep_repo, bind. rewrite Ho. unfold find_ref. rewrite Href.
  cbn [resolve_ref]. unfold bind, lift. cbn [full_name]. rewrite Hrefs.
  rewrite (candidates_non_string rs v Hv).
  destruct v as [| b | n | m e | s' | l | d]; cbn [full_name]; eauto.
  now destruct (Hv s').
Qed.

Lemma prep_repo_ref_not_a_string_witness :
  exists msg : string,
    prep_repo simple_format demo_git null_ref_repo_d false cloned_world
    = (Err (Raise TypeError msg), cloned_world).
Proof.
  apply (prep_repo_ref_not_a_string simple_format demo_git null_ref_repo_d
           false cloned_world cloned_world demo_repo VNone demo_refs).
  - reflexivity.
  - reflexivity.
  - discriminate.
  - reflexivity.
Defined.

Lemma render_element_words (format : string -> dict -> result string)
      (td : dict) (k : string) (v : value) (out : list string * list string) :
  render_element format td k v ([], []) = Ok out ->
  out = (element_flags format td k v, element_args format td k v).
Proof.
  unfold render_element, element_flags, element_args, rendered.
  destruct v as [| b | n | m e | s | l | d]; try discriminate.
  - destruct b; intros H; inversion H; reflexivity.
  - destruct (format s td) as [v |]; cbn [rbind]; [| discriminate].
    change ARGS_KW with "ARGS".
    destruct (k =? "ARGS"); intros H; inversion H; reflexivity.
Qed.

Lemma render_values_words (format : string -> dict -> result string)
      (td : dict) (k : string) :
  forall (vs : list value) (out : list string * list string),
    render_values format td k vs ([], []) = Ok out ->
    out = (flat_map (element_flags format td k) vs,
           flat_map (element_args format td k) vs).
Proof.
  induction vs as [| v rest IH]; intros out H; cbn [render_values] in H.
  - inversion H. reflexivity.
  - destruct (render_element format td k v ([], [])) as [[c1 a1] | e] eqn:Hv;
      cbn [rbind] in H; [| discriminate].
    apply render_element_words in Hv. inversion Hv; subst.
    rewrite render_values_acc in H.
    destruct (render_values format td k rest ([], [])) as [[c2 a2] | e] eqn:Hr;
      cbn [rbind fst snd] in H; [| discriminate].
    specialize (IH _ eq_refl). inversion IH; subst.
    inversion H. reflexivity.
Qed.

Lemma render_items_words (format : string -> dict -> result string)
      (td : dict) :
  forall (items : dict) (out : list string * list string),
    render_items format td items ([], []) = Ok out ->
    out = (flat_map (option_flags format td) items,
           flat_map (option_args format td) items).
Proof.
  induction items as [| [k origs] rest IH]; intros out H;
    cbn [render_items] in H.
  - inversion H. reflexivity.
  - destruct (render_values format td k (as_list origs) ([], []))
      as [[c1 a1] | e] eqn:Hv; cbn [rbind] in H; [| discriminate].
    apply render_values_words in Hv. inversion Hv; subst.
    rewrite render_items_acc in H.
    destruct (render_items format td rest ([], [])) as [[c2 a2] | e] eqn:Hr;
      cbn [rbind fst snd] in H; [| discriminate].
    specialize (IH _ eq_refl). inversion IH; subst.
    inversion H. reflexivity.
Qed.

(** X20: a synthesized command is the fixed base command, then for each
    option in the order of the dict its flags (a bare flag for an element
    [true], flag and rendered text for a string, each element of a list in
    turn, nothing for [false] and for the strings of [ARGS]), then the
    rendered strings of [ARGS]; nothing of the dict comes before the base
    command or takes anything from it. *)
Theorem synthesize_shape :
  forall (format : string -> dict -> result string) (pkgdir : string)
         (td fpm : dict) (cmd : list string),
    synthesize format pkgdir td fpm = Ok cmd ->
    cmd
    = ["fpm"; "--force"; "--verbose"; "--template-scripts";
       "--output-type"; "rpm"; "--package"; pkgdir]
      ++ flat_map (option_flags format td) fpm
      ++ flat_map (option_args format td) fpm.
Proof.
  intros format pkgdir td fpm cmd H. unfold synthesize in H.
  rewrite render_items_acc in H.
  destruct (render_items format td fpm ([], [])) as [[flags positional] | e]
    eqn:Hr; cbn [rbind fst snd] in H; [| discriminate].
  apply render_items_words in Hr. inversion Hr; subst.
  injection H as <-. reflexivity.
Qed.

Lemma synthesize_shape_witness :
  [ "fpm"; "--force"; "--verbose"; "--template-scripts";
    "--output-type"; "rpm"; "--package"; "/tmp/yoda-packages/packages";
    "--depends"; "python"; "--depends"; "demo-common";
    "--no-depends"; "--name"; "demo"; "src/=demo"; "etc/" ]
  = ["fpm"; "--force"; "--verbose"; "--template-scripts";
     "--output-type"; "rpm"; "--package"; "/tmp/yoda-packages/packages"]
    ++ flat_map (option_flags simple_format [("name", VStr "demo")])
                [ ("ARGS", VList [VStr "src/={name}"; VStr "etc/"]);
                  ("depends", VList [VStr "python"; VStr "{name}-common"]);
                  ("no-depends", VBool true);
                  ("no-auto-depends", VBool false);
                  ("name", VStr "demo") ]
    ++ flat_map (option_args simple_format [("name", VStr "demo")])
                [ ("ARGS", VList [VStr "src/={name}"; VStr "etc/"]);
                  ("depends", VList [VStr "python"; VStr "{name}-common"]);
                  ("no-depends", VBool true);
                  ("no-auto-depends", VBool false);
                  ("name", VStr "demo") ].
Proof.
  apply (synthesize_shape simple_format "/tmp/yoda-packages/packages"
           [("name", VStr "demo")]
           [ ("ARGS", VList [VStr "src/={name}"; VStr "etc/"]);
             ("depends", VList [VStr "python"; VStr "{name}-common"]);
             ("no-depends", VBool true);
             ("no-auto-depends", VBool false);
             ("name", VStr "demo") ]).
  reflexivity.
Defined.

(** ** prep_repo when the ref is found *)

(** X21: when the ref is a name that some reference carries, [prep_repo]
    checks out the first reference named exactly like the ref, or, when
    there is none, the first one named [origin/<ref>]; if the checkout
    succeeds it returns the repository with the [version] of the entry or,
    without one, the version derived from the ref, and if the checkout
    fails its error is the error of [prep_repo]. *)
Theorem prep_repo_checks_out_resolved_ref :
  forall (format : string -> dict -> result string) (git : Git)
         (repo_d : dict) (wipe : bool) (w w1 : World) (repo : Repo)
         (s : string) (rs : list Reference) (r : Reference),
    open_repo format git repo_d wipe w = (Ok repo, w1) ->
    dict_get "ref" repo_d = Some (VStr s) ->
    refs git repo w1 = (Ok rs, w1) ->
    hd_error (candidates rs (VStr s)
              ++ candidates rs (VStr ("origin/" ++ s))) = Some r ->
    prep_repo format git repo_d wipe w
    = match checkout git repo r w1 with
      | (Ok _, w2) =>
          (Ok (repo,
               dict_get_default "version"
                 (if truthy (dict_get_default "ref_is_version" (VBool false)
                                              repo_d)
                  then VStr match s with String "v" rest => rest | _ => s end
                  else VNone)
                 repo_d),
           w2)
      | (Err e, w2) => (Err e, w2)
      end.
Proof.
  intros format git repo_d wipe w w1 repo s rs r Ho Href Hrefs Hhd.
  unfold prep_repo, bind. rewrite Ho. unfold find_ref. rewrite Href.
  rewrite (resolve_ref_rounds git repo repo_d s rs w1 Hrefs).
  rewrite ref_version_of_string. unfold rbind.
  destruct (candidates rs (VStr s)) as [| r1 rest1].
  - destruct (candidates rs (VStr ("origin/" ++ s))) as [| r2 rest2];
      [discriminate |].
    injection Hhd as ->.
    destruct (checkout git repo r w1) as [[[] | e] w2]; reflexivity.
  - injection Hhd as ->.
    destruct (checkout git repo r w1) as [[[] | e] w2]; reflexivity.
Qed.

Lemma prep_repo_checks_out_resolved_ref_witness :
  prep_repo simple_format shared_name_git demo_repo_d false cloned_world
  = match checkout shared_name_git demo_repo
                   (mkReference "v1.2.0" "refs/tags/v1.2.0") cloned_world with
    | (Ok _, w2) =>
        (Ok (demo_repo,
             dict_get_default "version"
               (if truthy (dict_get_default "ref_is_version" (VBool false)
                                            demo_repo_d)
                then VStr match "v1.2.0" with
                          | String "v" rest => rest
                          | _ => "v1.2.0"
                          end
                else VNone)
               demo_repo_d),
         w2)
    | (Err e, w2) => (Err e, w2)
    end.
Proof.
  apply (prep_repo_checks_out_resolved_ref simple_format shared_name_git
           demo_repo_d false cloned_world cloned_world demo_repo "v1.2.0"
           shared_name_refs (mkReference "v1.2.0" "refs/tags/v1.2.0"));
    reflexivity.
Defined.
